(** * infrastructure-automation: inventory generation and SSH key management

    A shallow embedding of the Python sources
      - src/utils/exceptions.py       (the exception hierarchy),
      - src/inventory/aws_inventory.py (instance listing, inventory building),
      - src/utils/ssh_manager.py       (key pairs, public keys, connectivity,
                                        known hosts, key setup),
      - src/utils/logging_config.py    (masking of sensitive data),
      - main.py                        (command dispatch),
    followed by the properties proved about them.

    Conventions.
    - A Python call that may raise is a value of [res A]: [Ok a] for a normal
      return, [Raise e] for an exception [e].  [try ... except] blocks are
      written with [try_except]: the handlers are tried in source order and
      the first whose class test accepts the exception runs.
    - A dict is a [gmap]; [d.get(k)] is [d !! k]; [d[k] = v] is [<[k:=v]> d].
    - A Python [str] is a [string]; characters are code points below 256.
    - Logging (the [logger] calls and [LoggingContextManager], whose
      [__exit__] returns [None] and so never swallows an exception) has no
      influence on results and is left out. *)

From Stdlib Require Import ZArith Ascii String DecimalString.
From stdpp Require Import gmap strings list fin_maps.

Set Warnings "-clear-no-such-hyp".

Local Open Scope string_scope.
Local Open Scope list_scope.
Local Open Scope stdpp_scope.

(* ===================================================================== *)
(** ** Python prelude: exceptions, results, strings, paths *)
(* ===================================================================== *)

Module Py.

(** Exception classes: Python built-ins, subprocess, botocore, and the
    classes of src/utils/exceptions.py. *)
Inductive exn_class : Type :=
  | BaseException | KeyboardInterrupt
  | Exception
  | RuntimeError | KeyError | ValueError | UnicodeDecodeError
  | OSError | FileNotFoundError | PermissionError | IsADirectoryError
  | NotADirectoryError | TimeoutError
  | SubprocessError | CalledProcessError | TimeoutExpired
  | ClientError | BotoCoreError | NoCredentialsError | PartialCredentialsError
  | InfrastructureError
  | InventoryError | CloudProviderError | SSHManagerError | PlaybookError
  | ConfigurationError | ResourceNotFoundError | AuthenticationError
  | ValidationError.

#[global] Instance exn_class_eq_dec : EqDecision exn_class.
Proof. solve_decision. Defined.

(** The direct base class ([IOError] is an alias of [OSError]). *)
Definition base (c : exn_class) : option exn_class :=
  match c with
  | BaseException => None
  | KeyboardInterrupt => Some BaseException
  | Exception => Some BaseException
  | RuntimeError | KeyError | ValueError | OSError | SubprocessError
  | ClientError | BotoCoreError | InfrastructureError => Some Exception
  | UnicodeDecodeError => Some ValueError
  | FileNotFoundError | PermissionError | IsADirectoryError
  | NotADirectoryError | TimeoutError => Some OSError
  | CalledProcessError | TimeoutExpired => Some SubprocessError
  | NoCredentialsError | PartialCredentialsError => Some BotoCoreError
  | InventoryError | CloudProviderError | SSHManagerError | PlaybookError
  | ConfigurationError | ResourceNotFoundError | AuthenticationError
  | ValidationError => Some InfrastructureError
  end.

Fixpoint issubclass_upto (n : nat) (c d : exn_class) : bool :=
  bool_decide (c = d) ||
  match n, base c with
  | S n', Some p => issubclass_upto n' p d
  | _, _ => false
  end.

(** The hierarchy is at most four levels deep. *)
Definition issubclass : exn_class -> exn_class -> bool := issubclass_upto 4.

(** An exception value: its class, [str(e)], one class-specific attribute
    ([e.stderr] of a [CalledProcessError], [e.response['Error']['Message']]
    of a [ClientError], empty otherwise) and [__cause__], set by
    [raise ... from e]. *)
#[warnings="-register-all"]
Inductive exn : Type :=
  mk_exn (cls : exn_class) (msg : string) (detail : string) (cause : option exn).

Definition exn_cls (e : exn) : exn_class := let (c, _, _, _) := e in c.
Definition exn_msg (e : exn) : string := let (_, m, _, _) := e in m.
Definition exn_detail (e : exn) : string := let (_, _, d, _) := e in d.
Definition exn_cause (e : exn) : option exn := let (_, _, _, c) := e in c.

(** [C(msg)] and [C(msg) from e]. *)
Definition new (c : exn_class) (m : string) : exn := mk_exn c m "" None.
Definition new_from (c : exn_class) (m : string) (e : exn) : exn :=
  mk_exn c m "" (Some e).

Definition isinstance (e : exn) (c : exn_class) : bool :=
  issubclass (exn_cls e) c.

(** [wraps e c]: an exception of class exactly [c] is [e] itself or lies on
    its [__cause__] chain. *)
Fixpoint wraps (e : exn) (c : exn_class) : bool :=
  let (k, _, _, ca) := e in
  bool_decide (k = c) ||
  match ca with Some e' => wraps e' c | None => false end.

Inductive res (A : Type) : Type :=
  | Ok (a : A)
  | Raise (e : exn).
Arguments Ok {A} a.
Arguments Raise {A} e.

Definition bind {A B} (r : res A) (k : A -> res B) : res B :=
  match r with
  | Ok a => k a
  | Raise e => Raise e
  end.

(** One [except C as e: h e] clause; a tuple of classes is a list. *)
Definition handler (A : Type) : Type := (list exn_class * (exn -> res A))%type.

Definition catches (cs : list exn_class) (e : exn) : bool :=
  existsb (isinstance e) cs.

Fixpoint dispatch {A} (hs : list (handler A)) (e : exn) : res A :=
  match hs with
  | [] => Raise e
  | (cs, h) :: hs' => if catches cs e then h e else dispatch hs' e
  end.

Definition try_except {A} (body : res A) (hs : list (handler A)) : res A :=
  match body with
  | Ok a => Ok a
  | Raise e => dispatch hs e
  end.

(** Truthiness of an optional string ([None] and [''] are falsy) and the
    [or] operator on such values. *)
Definition truthy (v : option string) : bool :=
  match v with
  | Some s => negb (bool_decide (s = ""))
  | None => false
  end.

Definition py_or (a b : option string) : option string :=
  if truthy a then a else b.

(** [str.isspace] on code points below 256. *)
Definition isspace (a : ascii) : bool :=
  let n := nat_of_ascii a in
  ((9 <=? n) && (n <=? 13) || (28 <=? n) && (n <=? 32)
   || (n =? 133) || (n =? 160))%nat.

Fixpoint lstrip (s : string) : string :=
  match s with
  | String a s' => if isspace a then lstrip s' else s
  | EmptyString => EmptyString
  end.

Fixpoint rstrip (s : string) : string :=
  match s with
  | String a s' =>
      match rstrip s' with
      | EmptyString => if isspace a then EmptyString else String a EmptyString
      | t => String a t
      end
  | EmptyString => EmptyString
  end.

(** [s.strip()] *)
Definition strip (s : string) : string := rstrip (lstrip s).

Definition startswith_sep (s : string) : bool :=
  match s with
  | String a _ => bool_decide (a = "/"%char)
  | EmptyString => false
  end.

Fixpoint endswith_sep (s : string) : bool :=
  match s with
  | EmptyString => false
  | String a EmptyString => bool_decide (a = "/"%char)
  | String _ s' => endswith_sep s'
  end.

(** [os.path.join(a, b)] of posixpath, for two components. *)
Definition path_join (a b : string) : string :=
  if startswith_sep b then b
  else if bool_decide (a = "") || endswith_sep a then a +:+ b
  else a +:+ "/" +:+ b.

(** [str(n)] for an [int]. *)
Definition str_of_int (n : Z) : string := NilZero.string_of_int (Z.to_int n).

(** [s * n]: [n] copies of [s], none when [n] is zero or negative. *)
Fixpoint str_repeat (s : string) (n : nat) : string :=
  match n with
  | O => EmptyString
  | S n' => s +:+ str_repeat s n'
  end.

Definition str_mul (s : string) (n : Z) : string := str_repeat s (Z.to_nat n).

Fixpoint str_drop (n : nat) (s : string) : string :=
  match n, s with
  | O, _ => s
  | S n', String _ s' => str_drop n' s'
  | S _, EmptyString => EmptyString
  end.

(** [s[start:]]: a negative [start] counts from the end, and an index
    outside the string is clipped to it. *)
Definition slice_from (s : string) (start : Z) : string :=
  let len := Z.of_nat (String.length s) in
  let i := if (start <? 0)%Z then Z.max (len + start) 0 else Z.min start len in
  str_drop (Z.to_nat i) s.

(** [p[:p.rfind('/') + 1]]: the part of a path up to its last separator. *)
Fixpoint dir_head (p : string) : string :=
  match p with
  | EmptyString => EmptyString
  | String a p' =>
      match dir_head p' with
      | EmptyString =>
          if bool_decide (a = "/"%char) then String a EmptyString else EmptyString
      | h => String a h
      end
  end.

Fixpoint all_sep (s : string) : bool :=
  match s with
  | EmptyString => true
  | String a s' => bool_decide (a = "/"%char) && all_sep s'
  end.

(** [s.rstrip('/')] *)
Fixpoint rstrip_sep (s : string) : string :=
  match s with
  | String a s' =>
      match rstrip_sep s' with
      | EmptyString =>
          if bool_decide (a = "/"%char) then EmptyString else String a EmptyString
      | t => String a t
      end
  | EmptyString => EmptyString
  end.

(** [os.path.dirname(p)] of posixpath. *)
Definition dirname (p : string) : string :=
  let head := dir_head p in
  if negb (bool_decide (head = "")) && negb (all_sep head)
  then rstrip_sep head
  else head.

(** The classes declared in src/utils/exceptions.py below
    [InfrastructureError]. *)
Definition infrastructure_errors : list exn_class :=
  [InventoryError; CloudProviderError; SSHManagerError; PlaybookError;
   ConfigurationError; ResourceNotFoundError; AuthenticationError;
   ValidationError].

End Py.

Import Py.

(** [res] is a monad; stdpp's [x ← m; k] sequences calls that may raise. *)
#[global] Instance res_ret : MRet res := @Ok.
#[global] Instance res_bind : MBind res := fun A B k r => Py.bind r k.

(* ===================================================================== *)
(** ** src/inventory/aws_inventory.py *)
(* ===================================================================== *)

Module Inventory.

(** One element of [reservation['Instances']] in a [describe_instances]
    response.  [StateName] is [instance['State']['Name']]; the three
    optional keys are the ones the source reads with [.get]. *)
Record raw_instance : Type := {
  InstanceId : string;
  InstanceType : string;
  StateName : string;
  PrivateIpAddress : option string;
  PublicIpAddress : option string;
  Tags : option (list (string * string))
}.

(** [reservation['Instances']] and [response['Reservations']]. *)
Abbreviation reservation := (list raw_instance) (only parsing).
Abbreviation response := (list (list raw_instance)) (only parsing).

(** An EC2 filter [{'Name': n, 'Values': vs}]. *)
Abbreviation filter_spec := (string * list string)%type (only parsing).

(** The normalised record built at lines 73-80, with keys
    ['id'], ['type'], ['state'], ['private_ip'], ['public_ip'], ['tags']. *)
Record instance : Type := {
  i_id : string;
  i_type : string;
  i_state : string;
  i_private_ip : option string;
  i_public_ip : option string;
  i_tags : gmap string string
}.

(** The generator object: its region and its EC2 client, of which only
    [describe_instances(Filters=...)] is used. *)
Record AWSInventoryGenerator : Type := {
  region : string;
  ec2_client : list filter_spec -> res response
}.

(** [{tag['Key']: tag['Value'] for tag in ts}]: later keys overwrite. *)
Definition tags_dict (ts : list (string * string)) : gmap string string :=
  foldl (fun d t => <[t.1 := t.2]> d) ∅ ts.

Definition instance_info (r : raw_instance) : instance :=
  {| i_id := InstanceId r;
     i_type := InstanceType r;
     i_state := StateName r;
     i_private_ip := PrivateIpAddress r;
     i_public_ip := PublicIpAddress r;
     i_tags := tags_dict (default [] (Tags r)) |}.

Definition is_running (r : raw_instance) : bool :=
  bool_decide (StateName r = "running").

(** The inner loop (lines 71-82) and the outer loop (line 70). *)
Definition scan_reservation (instances : list instance) (rsv : reservation)
  : list instance :=
  foldl (fun acc r => if is_running r then acc ++ [instance_info r] else acc)
        instances rsv.

Definition scan_response (resp : response) : list instance :=
  foldl scan_reservation [] resp.

(** [AWSInventoryGenerator.get_instances] *)
Definition get_instances (self : AWSInventoryGenerator)
    (filters : option (list filter_spec)) : res (list instance) :=
  try_except
    (let filters := default [] filters in
     resp ← ec2_client self filters;
     let instances := scan_response resp in
     match instances with
     | [] => Raise (new ResourceNotFoundError "No running EC2 instances found")
     | _ => Ok instances
     end)
    [ ([ClientError], fun e =>
         Raise (new_from CloudProviderError
                  ("Failed to get EC2 instances: " +:+ exn_detail e) e));
      ([Exception], fun e =>
         Raise (new_from CloudProviderError
                  ("Unexpected error getting EC2 instances: " +:+ exn_msg e) e)) ].

(** The [host_vars] dict of lines 129-134. *)
Record host_vars : Type := {
  ansible_host : option string;
  ansible_user : string;
  instance_id : string;
  instance_type : string
}.

(** The inventory dict has a fixed shape; its two variable parts are
    [inventory['all']['hosts']] and
    [inventory['all']['children']['webservers']['hosts']]. *)
Record inventory : Type := {
  all_hosts : gmap string host_vars;
  webservers_hosts : gmap string host_vars
}.

Definition empty_inventory : inventory :=
  {| all_hosts := ∅; webservers_hosts := ∅ |}.

Definition make_host_vars (i : instance) : host_vars :=
  {| ansible_host := py_or (i_public_ip i) (i_private_ip i);
     ansible_user := "ubuntu";
     instance_id := i_id i;
     instance_type := i_type i |}.

(** [instance['tags'].get('Role') == 'webserver'] *)
Definition is_webserver (i : instance) : bool :=
  bool_decide (i_tags i !! "Role" = Some "webserver").

(** One iteration of the loop at lines 128-142. *)
Definition add_instance (inv : inventory) (i : instance) : inventory :=
  let hv := make_host_vars i in
  let hosts := <[i_id i := hv]> (all_hosts inv) in
  if is_webserver i
  then {| all_hosts := hosts;
          webservers_hosts := <[i_id i := hv]> (webservers_hosts inv) |}
  else {| all_hosts := hosts; webservers_hosts := webservers_hosts inv |}.

(** Lines 117-142: the inventory built from the listed instances. *)
Definition build_inventory (instances : list instance) : inventory :=
  foldl add_instance empty_inventory instances.

(** The files written so far: a path holds the document that
    [json.dump(inventory, f, indent=2)] serialised into it. *)
Abbreviation disk := (gmap string inventory) (only parsing).

(** [AWSInventoryGenerator.generate_inventory].  [open_w path] is the
    outcome of opening [path] for writing and dumping into it: [None] when
    it succeeds, [Some e] when it raises [e]. *)
Definition generate_inventory (self : AWSInventoryGenerator)
    (open_w : string -> option exn) (output_file : string) (d : disk)
  : res unit * disk :=
  let body : res inventory :=
    instances ← get_instances self None;
    let inv := build_inventory instances in
    try_except
      (match open_w output_file with
       | None => Ok inv
       | Some e => Raise e
       end)
      [ ([OSError; OSError], fun e =>
           Raise (new_from InventoryError
                    ("Failed to write inventory file: " +:+ exn_msg e) e)) ] in
  match
    try_except body
      [ ([CloudProviderError; ResourceNotFoundError], fun e =>
           Raise (new_from InventoryError
                    ("Failed to generate inventory: " +:+ exn_msg e) e));
        ([Exception], fun e =>
           Raise (new_from InventoryError
                    ("Unexpected error generating inventory: " +:+ exn_msg e) e)) ]
  with
  | Ok inv => (Ok (), <[output_file := inv]> d)
  | Raise e => (Raise e, d)
  end.

(** [AWSInventoryGenerator.__init__]: [boto3_client region] is the outcome
    of [boto3.client('ec2', region_name=region)]. *)
Definition init (boto3_client : string -> res (list filter_spec -> res response))
    (rgn : string) : res AWSInventoryGenerator :=
  try_except
    (c ← boto3_client rgn;
     Ok {| region := rgn; ec2_client := c |})
    [ ([NoCredentialsError; PartialCredentialsError], fun e =>
         Raise (new_from AuthenticationError
                  ("AWS credentials not found or incomplete. " +:+
                   "Please set AWS_ACCESS_KEY_ID and AWS_SECRET_ACCESS_KEY environment variables.")
                  e));
      ([ClientError], fun e =>
         Raise (new_from CloudProviderError
                  ("Failed to initialize AWS client: " +:+ exn_msg e) e));
      ([Exception], fun e =>
         Raise (new_from CloudProviderError
                  ("Unexpected error initializing AWS client: " +:+ exn_msg e) e)) ].

(** [generate_aws_inventory(region, output_file)] *)
Definition generate_aws_inventory
    (boto3_client : string -> res (list filter_spec -> res response))
    (open_w : string -> option exn)
    (rgn output_file : string) (d : disk) : res unit * disk :=
  match init boto3_client rgn with
  | Ok generator =>
      let (r, d') := generate_inventory generator open_w output_file d in
      (try_except r
         [ ([CloudProviderError; InventoryError], fun e => Raise e);
           ([Exception], fun e =>
              Raise (new_from InventoryError ("Unexpected error: " +:+ exn_msg e) e)) ],
       d')
  | Raise e =>
      (dispatch
         [ ([CloudProviderError; InventoryError], fun e => Raise e);
           ([Exception], fun e =>
              Raise (new_from InventoryError ("Unexpected error: " +:+ exn_msg e) e)) ]
         e,
       d)
  end.

(** Lines 36-37 make two SDK calls in a row, [boto3.client] and
    [boto3.resource]; the resource object is stored and never used.  The
    SDK argument of [init] is then the outcome of the pair. *)
Definition boto3_session
    (client : string -> res (list filter_spec -> res response))
    (resource : string -> res unit)
  : string -> res (list filter_spec -> res response) :=
  fun rgn =>
    c ← client rgn;
    _ ← resource rgn;
    Ok c.

End Inventory.

(* ===================================================================== *)
(** ** src/utils/ssh_manager.py *)
(* ===================================================================== *)

Module SSH.

(** The file system as the manager sees it: a path names a regular file
    (permission bits, text) or a directory.  Paths are compared as strings. *)
Inductive node : Type :=
  | File (mode : N) (data : string)
  | Dir (mode : N).

(** What an external process can do when [subprocess.run] starts it: exit
    with a return code and captured output, still be running when the
    timeout expires, or fail to start or run with some exception. *)
Inductive proc_outcome : Type :=
  | Exited (returncode : Z) (stdout stderr : string)
  | TimedOut
  | SpawnFailed (e : exn).

(** [subprocess.CompletedProcess] *)
Record completed : Type := {
  returncode : Z;
  stdout : string;
  stderr : string
}.

(** The state the manager acts on: the file system and the commands handed
    to [subprocess.run] so far, oldest first. *)
Record world : Type := {
  w_fs : gmap string node;
  w_calls : list (list string)
}.

(** Calls that may raise and may change the world. *)
Definition M (A : Type) : Type := world -> res A * world.

Definition ret_M {A} (a : A) : M A := fun w => (Ok a, w).
Definition raise_M {A} (e : exn) : M A := fun w => (Raise e, w).
Definition bind_M {A B} (m : M A) (k : A -> M B) : M B :=
  fun w =>
    match m w with
    | (Ok a, w') => k a w'
    | (Raise e, w') => (Raise e, w')
    end.

Notation "'let*' x := m 'in' k" := (bind_M m (fun x => k))
  (at level 10, x name, m at level 100, k at level 200).

Fixpoint dispatch_M {A} (hs : list (list exn_class * (exn -> M A))) (e : exn)
  : M A :=
  match hs with
  | [] => raise_M e
  | (cs, h) :: hs' => if catches cs e then h e else dispatch_M hs' e
  end.

(** [try: body except ...]: what the body did to the world before it raised
    stays done. *)
Definition try_M {A} (body : M A) (hs : list (list exn_class * (exn -> M A)))
  : M A :=
  fun w =>
    match body w with
    | (Ok a, w') => (Ok a, w')
    | (Raise e, w') => dispatch_M hs e w'
    end.

(** [os.path.exists(path)] *)
Definition path_exists (fs : gmap string node) (path : string) : bool :=
  bool_decide (is_Some (fs !! path)).

(** [os.chmod(path, mode)] *)
Definition chmod (path : string) (m : N) : M unit :=
  fun w =>
    match w_fs w !! path with
    | Some (File _ data) =>
        (Ok (), {| w_fs := <[path := File m data]> (w_fs w); w_calls := w_calls w |})
    | Some (Dir _) =>
        (Ok (), {| w_fs := <[path := Dir m]> (w_fs w); w_calls := w_calls w |})
    | None =>
        (Raise (new FileNotFoundError ("No such file or directory: " +:+ path)), w)
    end.

(** The owner may read a file whose mode has bit 0o400. *)
Definition owner_readable (m : N) : bool := N.testbit m 8.

(** [s.startswith(pre)] *)
Fixpoint startswith (s pre : string) : bool :=
  match pre, s with
  | EmptyString, _ => true
  | String b pre', String a s' => bool_decide (a = b) && startswith s' pre'
  | String _ _, EmptyString => false
  end.

(** The names a path goes through: its proper prefixes that a separator
    follows, shortest first.  [/keys/k.pub] goes through the root,
    written as the empty prefix, and through [/keys]. *)
Fixpoint ancestors_from (pre p : string) : list string :=
  match p with
  | EmptyString => []
  | String c p' =>
      (if bool_decide (c = "/"%char) then [pre] else [])
      ++ ancestors_from (pre +:+ String c EmptyString) p'
  end.

Definition ancestors (p : string) : list string := ancestors_from "" p.

Definition is_regular (o : option node) : bool :=
  match o with
  | Some (File _ _) => true
  | _ => false
  end.

(** Some path beneath [a] is bound. *)
Definition has_entry_under (fs : gmap string node) (a : string) : bool :=
  existsb (λ kv, startswith kv.1 (a +:+ "/")) (map_to_list fs).

(** A path is obstructed when one of the names it goes through is a
    regular file: nothing can be at such a path, and opening it fails with
    [ENOTDIR].  A regular file has nothing beneath it; a map that binds
    [a] to a file and also binds a path beneath [a] describes no file
    system, and [a] is then not taken for an obstacle. *)
Definition obstructed (fs : gmap string node) (path : string) : bool :=
  existsb (λ a, is_regular (fs !! a) && negb (has_entry_under fs a))
          (ancestors path).

(** [with open(path, 'r') as f: f.read()], for a process that owns the
    files and is not the superuser.  A [File] holds text: its content is
    what decoding gives, so no decoding error arises from it.  Names are
    within the length limits of the file system, the directories on the
    way can be searched, and there are no symbolic links. *)
Definition read_text (fs : gmap string node) (path : string) : res string :=
  match fs !! path with
  | None =>
      if obstructed fs path
      then Raise (new NotADirectoryError ("Not a directory: " +:+ path))
      else Raise (new FileNotFoundError ("No such file or directory: " +:+ path))
  | Some (Dir _) => Raise (new IsADirectoryError ("Is a directory: " +:+ path))
  | Some (File m data) =>
      if owner_readable m then Ok data
      else Raise (new PermissionError ("Permission denied: " +:+ path))
  end.

(** The manager object after [__init__]: its key directory. *)
Record SSHManager : Type := { key_dir : string }.

Section Manager.

(** The external process capability: the outcome of running [cmd] with the
    given timeout on a file system, and the file system it leaves. *)
Variable spawn :
  list string -> option Z -> gmap string node -> proc_outcome * gmap string node.

(** [subprocess.run(cmd, check=check, capture_output=True, text=True,
    timeout=timeout)] *)
Definition subprocess_run (cmd : list string) (check : bool)
    (timeout : option Z) : M completed :=
  fun w =>
    let (o, fs') := spawn cmd timeout (w_fs w) in
    let w' := {| w_fs := fs'; w_calls := w_calls w ++ [cmd] |} in
    match o with
    | Exited rc out err =>
        if check && negb (rc =? 0)%Z
        then (Raise (mk_exn CalledProcessError
                       ("Command returned non-zero exit status " +:+ str_of_int rc)
                       err None), w')
        else (Ok {| returncode := rc; stdout := out; stderr := err |}, w')
    | TimedOut => (Raise (new TimeoutExpired "Command timed out"), w')
    | SpawnFailed e => (Raise e, w')
    end.

Definition keygen_cmd (private_key_path : string) (passphrase : option string)
  : list string :=
  ["ssh-keygen"; "-t"; "ed25519"; "-f"; private_key_path; "-N";
   default "" (py_or passphrase (Some ""))].

(** [SSHManager.generate_key_pair] *)
Definition generate_key_pair (self : SSHManager) (key_name : string)
    (passphrase : option string) : M (string * string) :=
  fun w =>
    let private_key_path := path_join (key_dir self) key_name in
    let public_key_path := private_key_path +:+ ".pub" in
    if path_exists (w_fs w) private_key_path
    then (Ok (private_key_path, public_key_path), w)
    else
      try_M
        (let* _ := subprocess_run (keygen_cmd private_key_path passphrase) true None in
         let* _ := chmod private_key_path 384 in
         let* _ := chmod public_key_path 420 in
         ret_M (private_key_path, public_key_path))
        [ ([CalledProcessError], fun e =>
             raise_M (new_from SSHManagerError
                        ("Failed to generate SSH key pair: " +:+ exn_detail e) e));
          ([OSError], fun e =>
             raise_M (new_from SSHManagerError
                        ("Failed to set key permissions: " +:+ exn_msg e) e)) ]
        w.

(** [SSHManager.get_public_key] *)
Definition get_public_key (self : SSHManager) (key_name : string)
    (fs : gmap string node) : res string :=
  let public_key_path := path_join (key_dir self) (key_name +:+ ".pub") in
  try_except
    (content ← read_text fs public_key_path;
     Ok (strip content))
    [ ([FileNotFoundError], fun _ =>
         Raise (new ResourceNotFoundError
                  ("Public key not found: " +:+ public_key_path)));
      ([OSError], fun e =>
         Raise (new_from SSHManagerError
                  ("Failed to read public key: " +:+ exn_msg e) e)) ].

Definition ssh_cmd (private_key_path host user : string) (port : Z)
  : list string :=
  ["ssh"; "-i"; private_key_path; "-p"; str_of_int port;
   "-o"; "StrictHostKeyChecking=no"; "-o"; "BatchMode=yes";
   user +:+ "@" +:+ host; "echo 'SSH connection successful'"].

(** [SSHManager.verify_connectivity]; the source's default for [port] is 22. *)
Definition verify_connectivity (self : SSHManager) (host user key_name : string)
    (port : Z) : M bool :=
  fun w =>
    let private_key_path := path_join (key_dir self) key_name in
    if negb (path_exists (w_fs w) private_key_path)
    then (Raise (new ResourceNotFoundError
                   ("Private key not found: " +:+ private_key_path)), w)
    else
      try_M
        (let* result := subprocess_run (ssh_cmd private_key_path host user port)
                          false (Some 10%Z) in
         if (returncode result =? 0)%Z then ret_M true else ret_M false)
        [ ([TimeoutExpired], fun _ => ret_M false);
          ([CalledProcessError], fun _ => ret_M false);
          ([Exception], fun e =>
             raise_M (new_from SSHManagerError
                        ("Unexpected error connecting to " +:+ host +:+ ": "
                         +:+ exn_msg e) e)) ]
        w.

End Manager.

(** The permission bits of a file or directory. *)
Definition node_mode (n : node) : N :=
  match n with
  | File m _ => m
  | Dir m => m
  end.

(** The same file or directory with other permission bits. *)
Definition with_mode (n : node) (m : N) : node :=
  match n with
  | File _ data => File m data
  | Dir _ => Dir m
  end.

(** The owner may write a file whose mode has bit 0o200. *)
Definition owner_writable (m : N) : bool := N.testbit m 7.

Section Host.

(** [os.path.expanduser] in the environment of the process. *)
Variable expanduser : string -> string.

(** [os.makedirs(path, mode=mode, exist_ok=True)] on a file system: the
    exception it raises, if any, and the file system it leaves. *)
Variable makedirs :
  string -> N -> gmap string node -> option exn * gmap string node.

(** The file mode creation mask of the process. *)
Variable umask : N.

Variable spawn :
  list string -> option Z -> gmap string node -> proc_outcome * gmap string node.

Definition os_makedirs (path : string) (mode : N) : M unit :=
  fun w =>
    let (o, fs') := makedirs path mode (w_fs w) in
    let w' := {| w_fs := fs'; w_calls := w_calls w |} in
    match o with
    | None => (Ok (), w')
    | Some e => (Raise e, w')
    end.

(** [SSHManager.__init__]; the source's default for [key_dir] is [~/.ssh]. *)
Definition init (dir : string) : M SSHManager :=
  try_M
    (let kd := expanduser dir in
     let* _ := os_makedirs kd 448 in
     ret_M {| key_dir := kd |})
    [ ([OSError], fun e =>
         raise_M (new_from SSHManagerError
                    ("Failed to create SSH key directory: " +:+ exn_msg e) e)) ].

(** [with open(path, 'a') as f: f.write(text)]: the text goes after what
    the file holds; a missing file is created with mode [0o666 & ~umask]. *)
Definition append_text (path text : string) : M unit :=
  fun w =>
    match w_fs w !! path with
    | None =>
        (Ok (), {| w_fs := <[path := File (N.ldiff 438 umask) text]> (w_fs w);
                   w_calls := w_calls w |})
    | Some (File m data) =>
        if owner_writable m
        then (Ok (), {| w_fs := <[path := File m (data +:+ text)]> (w_fs w);
                        w_calls := w_calls w |})
        else (Raise (new PermissionError ("Permission denied: " +:+ path)), w)
    | Some (Dir _) =>
        (Raise (new IsADirectoryError ("Is a directory: " +:+ path)), w)
    end.

Definition keyscan_cmd (host : string) (port : Z) : list string :=
  ["ssh-keyscan"; "-p"; str_of_int port; host].

(** [SSHManager.add_to_known_hosts]; the source's default for [port] is 22. *)
Definition add_to_known_hosts (self : SSHManager) (host : string) (port : Z)
  : M unit :=
  let known_hosts_path := path_join (key_dir self) "known_hosts" in
  try_M
    (let* _ := os_makedirs (dirname known_hosts_path) 448 in
     let* result := subprocess_run spawn (keyscan_cmd host port) true None in
     let* _ := append_text known_hosts_path (stdout result) in
     ret_M ())
    [ ([CalledProcessError], fun e =>
         raise_M (new_from SSHManagerError
                    ("Failed to get host key: " +:+ exn_detail e) e));
      ([OSError], fun e =>
         raise_M (new_from SSHManagerError
                    ("Failed to write to known_hosts: " +:+ exn_msg e) e)) ].

(** [setup_ssh_key(key_name, passphrase)] *)
Definition setup_ssh_key (key_name : string) (passphrase : option string)
  : M (string * string) :=
  try_M
    (let* manager := init "~/.ssh" in
     generate_key_pair spawn manager key_name passphrase)
    [ ([Exception], fun e =>
         raise_M (new_from SSHManagerError
                    ("Failed to set up SSH key: " +:+ exn_msg e) e)) ].

End Host.

End SSH.

(* ===================================================================== *)
(** ** src/utils/logging_config.py *)
(* ===================================================================== *)

Module Logging.

(** [log_sensitive_data(logger, data)]: the masked text it returns. *)
Definition log_sensitive_data (data : string) : string :=
  if bool_decide (data = "") then ""
  else
    let masked :=
      str_mul "*" (Z.of_nat (String.length data) - 4) +:+ slice_from data (-4) in
    masked.

End Logging.

(* ===================================================================== *)
(** ** main.py *)
(* ===================================================================== *)

Module Main.

(** The [argparse.Namespace] after [parse_args]: the chosen subcommand
    ([None] when none was given) and the remaining attributes by name. *)
Record Namespace : Type := {
  command : option string;
  attrs : gmap string string
}.

(** What the process can reach: the interpreter version
    ([sys.version_info[:2]]), the environment variables, the cloud SDK
    ([boto3.client]) and the outcome of opening a path for writing. *)
Record env : Type := {
  version_info : nat * nat;
  environ : gmap string string;
  boto3_client : string -> res (list Inventory.filter_spec -> res Inventory.response);
  open_w : string -> option exn
}.

(** [sys.version_info < (3, 9)] *)
Definition version_lt_3_9 (v : nat * nat) : bool :=
  (v.1 <? 3)%nat || ((v.1 =? 3)%nat && (v.2 <? 9)%nat).

(** [validate_environment]: missing variables only produce warnings. *)
Definition validate_environment (e : env) : res unit :=
  if version_lt_3_9 (version_info e)
  then Raise (new RuntimeError "Python 3.9 or higher is required")
  else Ok ().

(** A command handler receives the parsed arguments and acts on the
    environment and the files. *)
Abbreviation handler_fn :=
  (Namespace -> env -> Inventory.disk -> res unit * Inventory.disk)
  (only parsing).

(** [handle_inventory]: logs, then [pass]. *)
Definition handle_inventory : handler_fn := fun args e d => (Ok (), d).

(** [handle_provision]: logs, then [pass]. *)
Definition handle_provision : handler_fn := fun args e d => (Ok (), d).

(** [handle_configure]: logs, then [pass]. *)
Definition handle_configure : handler_fn := fun args e d => (Ok (), d).

Definition command_handlers : gmap string handler_fn :=
  <["configure" := handle_configure]>
    (<["provision" := handle_provision]>
       (<["inventory" := handle_inventory]> ∅)).

(** [main], after [parser.parse_args()] returned [args]: the exit code it
    returns, or the exception that escapes its [except Exception]. *)
Definition main (args : Namespace) (e : env) (d : Inventory.disk)
  : res Z * Inventory.disk :=
  let body : res Z * Inventory.disk :=
    if negb (truthy (command args)) then (Ok 1%Z, d)
    else
      match validate_environment e with
      | Raise x => (Raise x, d)
      | Ok _ =>
          match command_handlers !! default "" (command args) with
          | Some handler =>
              match handler args e d with
              | (Ok _, d') => (Ok 0%Z, d')
              | (Raise x, d') => (Raise x, d')
              end
          | None => (Ok 1%Z, d)
          end
      end in
  (try_except body.1 [ ([Exception], fun _ => Ok 1%Z) ], body.2).

End Main.

(* ===================================================================== *)
(** ** Sample data *)
(* ===================================================================== *)

Module Samples.
Import Inventory SSH Main.

(** Two instances sharing an id, one tagged as a webserver, and a third
    whose [Role] tag differs in case. *)
Definition web_1 : instance :=
  {| i_id := "i-1"; i_type := "t2.micro"; i_state := "running";
     i_private_ip := Some "10.0.0.1"; i_public_ip := Some "54.0.0.1";
     i_tags := {[ "Role" := "webserver" ]} |}.

Definition plain_1 : instance :=
  {| i_id := "i-1"; i_type := "t2.small"; i_state := "running";
     i_private_ip := Some "10.0.0.2"; i_public_ip := None;
     i_tags := ∅ |}.

Definition plain_2 : instance :=
  {| i_id := "i-2"; i_type := "t2.small"; i_state := "running";
     i_private_ip := Some "10.0.0.2"; i_public_ip := None;
     i_tags := {[ "Role" := "Webserver" ]} |}.

(** A raw instance in a given state. *)
Definition raw (iid st : string) : raw_instance :=
  {| InstanceId := iid; InstanceType := "t2.micro"; StateName := st;
     PrivateIpAddress := Some "10.0.0.9"; PublicIpAddress := None;
     Tags := None |}.

(** Providers answering with two running instances among four, and with
    none running. *)
Definition sample_generator : AWSInventoryGenerator :=
  {| region := "us-west-2";
     ec2_client := λ _, Ok [[raw "i-a" "running"; raw "i-b" "stopped"];
                            [raw "i-c" "pending"; raw "i-d" "running"]] |}.

Definition idle_generator : AWSInventoryGenerator :=
  {| region := "us-west-2";
     ec2_client := λ _, Ok [[raw "i-b" "stopped"]; [raw "i-c" "pending"]] |}.

(** An environment in which listing and generation would succeed, and the
    arguments of [inventory --provider aws --region us-west-2]. *)
Definition sample_response : response :=
  [[ {| InstanceId := "i-1"; InstanceType := "t2.micro"; StateName := "running";
        PrivateIpAddress := Some "10.0.0.1"; PublicIpAddress := Some "54.0.0.1";
        Tags := Some [("Name", "test-instance"); ("Role", "webserver")] |} ]].

Definition sample_env : env :=
  {| version_info := (3, 11)%nat;
     environ := ∅;
     boto3_client := λ _, Ok (λ _, Ok sample_response);
     open_w := λ _, None |}.

Definition sample_args : Namespace :=
  {| command := Some "inventory";
     attrs := {[ "provider" := "aws"; "region" := "us-west-2";
                 "output" := "inventories/inventory.yml" ]} |}.

(** A key manager over [/keys], a key generator that writes both files of
    the pair it is asked for, and an SSH client that never answers. *)
Definition keys_manager : SSHManager := {| key_dir := "/keys" |}.

Definition keygen_spawn (cmd : list string) (timeout : option Z)
    (fs : gmap string node) : proc_outcome * gmap string node :=
  match cmd with
  | ["ssh-keygen"; _; _; _; path; _; _] =>
      (Exited 0 "" "",
       <[path +:+ ".pub" := File 420 "ssh-ed25519 AAAAC3Nz k1"]>
         (<[path := File 384 "PRIVATE KEY"]> fs))
  | _ => (TimedOut, fs)
  end.

Definition empty_world : world := {| w_fs := ∅; w_calls := [] |}.

Definition k1_world : world :=
  {| w_fs := {[ "/keys/k1" := File 384 "PRIVATE KEY" ]}; w_calls := [] |}.

(** Only the public half of a pair is on disk, with blanks around its text. *)
Definition pub_only_fs : gmap string node :=
  {[ "/keys/k2.pub" := File 420 "  ssh-ed25519 AAAAC3Nz k2
" ]}.



(** The failure of the listing when no instance is running, a refused
    write, and an SDK without credentials. *)
Definition none_running_error : exn :=
  new_from CloudProviderError
    "Unexpected error getting EC2 instances: No running EC2 instances found"
    (new ResourceNotFoundError "No running EC2 instances found").

Definition permission_denied : exn := new PermissionError "Permission denied".

Definition no_credentials : exn :=
  new NoCredentialsError "Unable to locate credentials".

(** A host whose home is [/home/u], where every directory asked for is
    already there, with the usual mask [0o022]; a key scanner that answers
    with one key line, and a key generator that fails. *)
Definition home_expanduser (p : string) : string :=
  match p with
  | String "~" rest => "/home/u" +:+ rest
  | _ => p
  end.

Definition makedirs_present (path : string) (mode : N) (fs : gmap string node)
  : option exn * gmap string node := (None, fs).

Definition makedirs_denied (path : string) (mode : N) (fs : gmap string node)
  : option exn * gmap string node := (Some permission_denied, fs).

Definition keyscan_spawn (cmd : list string) (timeout : option Z)
    (fs : gmap string node) : proc_outcome * gmap string node :=
  match cmd with
  | ["ssh-keyscan"; _; _; host] => (Exited 0 (host +:+ " ssh-ed25519 AAAAC3Nz;") "", fs)
  | _ => (Exited 1 "" "unknown command", fs)
  end.

Definition failing_spawn (cmd : list string) (timeout : option Z)
    (fs : gmap string node) : proc_outcome * gmap string node :=
  (Exited 1 "" "ssh: failure", fs).


Definition known_hosts_world : world :=
  {| w_fs := {[ "/keys/known_hosts" := File 420 "old-host ssh-ed25519 AAAAC3Nz;" ]};
     w_calls := [] |}.


(** What leaves [generate_aws_inventory] on that SDK. *)
Definition credentials_failure : exn :=
  new_from InventoryError
    "Unexpected error: AWS credentials not found or incomplete. Please set AWS_ACCESS_KEY_ID and AWS_SECRET_ACCESS_KEY environment variables."
    (new_from AuthenticationError
       "AWS credentials not found or incomplete. Please set AWS_ACCESS_KEY_ID and AWS_SECRET_ACCESS_KEY environment variables."
       no_credentials).

End Samples.

(* ===================================================================== *)
(** ** Properties of the exception classes *)
(* ===================================================================== *)

Module PyProofs.

(** None of the classes of src/utils/exceptions.py has a subclass. *)
Lemma issubclass_leaf (c d : exn_class) :
  d ∈ infrastructure_errors → issubclass c d = true → c = d.
Proof.
  intros Hd. apply list_elem_of_In in Hd. simpl in Hd.
  decompose [or] Hd; subst; try done; destruct c; vm_compute; congruence.
Qed.

(** What is not an [Exception] is none of them either. *)
Lemma not_exception_not_infrastructure (e : exn) (d : exn_class) :
  d ∈ infrastructure_errors →
  isinstance e Exception = false → isinstance e d = false.
Proof.
  intros Hd. apply list_elem_of_In in Hd. simpl in Hd. unfold isinstance.
  decompose [or] Hd; subst; try done; destruct (exn_cls e); vm_compute; congruence.
Qed.

(** [OSError] and [CalledProcessError] have no exception in common. *)
Lemma oserror_not_called_process_error (e : exn) :
  isinstance e OSError = true → isinstance e CalledProcessError = false.
Proof. unfold isinstance. destruct (exn_cls e); vm_compute; congruence. Qed.

Lemma oserror_is_exception (e : exn) :
  isinstance e OSError = true → isinstance e Exception = true.
Proof. unfold isinstance. destruct (exn_cls e); vm_compute; congruence. Qed.

Lemma catches_one (e : exn) (c : exn_class) : catches [c] e = isinstance e c.
Proof. unfold catches. simpl. by rewrite orb_false_r. Qed.

Lemma catches_two (e : exn) (c1 c2 : exn_class) :
  catches [c1; c2] e = isinstance e c1 || isinstance e c2.
Proof. unfold catches. simpl. by rewrite orb_false_r. Qed.

(** *** Strings *)

Lemma str_append_cons (a : ascii) (s t : string) :
  String a s +:+ t = String a (s +:+ t).
Proof. reflexivity. Qed.

Lemma str_length_append (s t : string) :
  String.length (s +:+ t) = String.length s + String.length t.
Proof.
  induction s as [|a s IH]; [done|]. rewrite str_append_cons. simpl. by rewrite IH.
Qed.

(** A string is never its own extension by [.pub]. *)
Lemma append_pub_neq (s : string) : s ≠ s +:+ ".pub".
Proof.
  intros Heq. apply (f_equal String.length) in Heq.
  rewrite str_length_append in Heq. simpl in Heq. lia.
Qed.

(** What [strip] leaves neither starts nor ends with a blank. *)
Lemma lstrip_head (s : string) (a : ascii) (t : string) :
  lstrip s = String a t → isspace a = false.
Proof.
  induction s as [|b s IH]; simpl; [done|].
  destruct (isspace b) eqn:Hb; [done|]. by intros [= <- _].
Qed.

Lemma lstrip_fixed (s : string) :
  (∀ a t, s = String a t → isspace a = false) → lstrip s = s.
Proof.
  destruct s as [|a s]; [done|]. intros H. simpl.
  by rewrite (H a s eq_refl).
Qed.

Lemma rstrip_head (a : ascii) (s : string) :
  isspace a = false → ∃ t, rstrip (String a s) = String a t.
Proof.
  intros Ha. simpl. destruct (rstrip s); [rewrite Ha|]; eauto.
Qed.

Lemma rstrip_keeps_head (s : string) (a : ascii) (t : string) :
  (∀ b u, s = String b u → isspace b = false) →
  rstrip s = String a t → isspace a = false.
Proof.
  destruct s as [|b s]; [done|]. intros H.
  destruct (rstrip_head b s (H b s eq_refl)) as [u ->].
  intros [= <- _]. by apply (H b s).
Qed.

Lemma rstrip_last (s t : string) (a : ascii) :
  rstrip s = t +:+ String a "" → isspace a = false.
Proof.
  revert t. induction s as [|b s IH]; intros t; simpl.
  - by destruct t.
  - destruct (rstrip s) as [|c u] eqn:Hr.
    + destruct (isspace b) eqn:Hb; [by destruct t|].
      destruct t as [|c t]; [by intros [= <-]|].
      rewrite str_append_cons. intros [= _ H]. by destruct t.
    + destruct t as [|d t]; [done|].
      rewrite str_append_cons. intros [= _ H]. by apply (IH t).
Qed.

Lemma rstrip_idemp (s : string) : rstrip (rstrip s) = rstrip s.
Proof.
  induction s as [|b s IH]; [done|]. simpl.
  destruct (rstrip s) as [|c u] eqn:Hr.
  - destruct (isspace b) eqn:Hb; [done|]. simpl. by rewrite Hb.
  - change (rstrip (String b (String c u))) with
      (match rstrip (String c u) with
       | EmptyString => if isspace b then EmptyString else String b EmptyString
       | t => String b t
       end).
    by rewrite IH.
Qed.

Lemma strip_is_stripped (s : string) :
  strip (strip s) = strip s
  ∧ (∀ a t, strip s = String a t → isspace a = false)
  ∧ (∀ t a, strip s = t +:+ String a "" → isspace a = false).
Proof.
  assert (∀ a t, strip s = String a t → isspace a = false) as Hhead.
  { intros a t. unfold strip. apply rstrip_keeps_head.
    intros b u. apply lstrip_head. }
  split; [|split; [done|]].
  - unfold strip at 1. rewrite lstrip_fixed by done.
    unfold strip. apply rstrip_idemp.
  - intros t a. unfold strip. apply rstrip_last.
Qed.

(** X1: the eight classes declared below [InfrastructureError] are
    siblings: each is an [InfrastructureError] and an [Exception], none is
    a subclass of another, and an [except] clause naming one of them
    catches an exception of another of them only when the two classes are
    the same. *)
Theorem infrastructure_errors_are_siblings (c d : exn_class) :
  c ∈ infrastructure_errors → d ∈ infrastructure_errors →
  issubclass c InfrastructureError = true
  ∧ issubclass c Exception = true
  ∧ issubclass InfrastructureError c = false
  ∧ (issubclass c d = true ↔ c = d)
  ∧ ∀ m, catches [d] (new c m) = bool_decide (c = d).
Proof.
  intros Hc Hd. apply list_elem_of_In in Hc, Hd. simpl in Hc, Hd.
  decompose [or] Hc; subst; try done;
    decompose [or] Hd; subst; try done;
    (split; [done|]; split; [done|]; split; [done|]; split;
     [(split; [by vm_compute|done]) || (split; [by vm_compute|congruence])
     |intros m; by vm_compute]).
Qed.

Lemma infrastructure_errors_are_siblings_witness :
  issubclass AuthenticationError InfrastructureError = true
  ∧ issubclass AuthenticationError Exception = true
  ∧ issubclass InfrastructureError AuthenticationError = false
  ∧ (issubclass AuthenticationError CloudProviderError = true
     ↔ AuthenticationError = CloudProviderError)
  ∧ ∀ m, catches [CloudProviderError] (new AuthenticationError m)
         = bool_decide (AuthenticationError = CloudProviderError).
Proof.
  apply (infrastructure_errors_are_siblings AuthenticationError CloudProviderError);
    apply list_elem_of_In; simpl; tauto.
Defined.

(** [os.path.dirname] on the shapes of path the manager builds. *)
Example dirname_samples :
  dirname "/keys/known_hosts" = "/keys"
  ∧ dirname (path_join "/keys/" "known_hosts") = "/keys"
  ∧ dirname "known_hosts" = ""
  ∧ dirname "/known_hosts" = "/"
  ∧ dirname "a//b" = "a"
  ∧ dirname "//x" = "//".
Proof. repeat split; reflexivity. Qed.

End PyProofs.

(* ===================================================================== *)
(** ** Properties of the instance listing *)
(* ===================================================================== *)

Module InventoryProofs.
Import Inventory Samples.

(** The two loops of [get_instances] amount to one pass that keeps the
    running instances, in response order. *)
Lemma scan_reservation_spec (rsv : reservation) (acc : list instance) :
  scan_reservation acc rsv
  = acc ++ (instance_info <$> filter (λ r, StateName r = "running") rsv).
Proof.
  unfold scan_reservation. revert acc.
  induction rsv as [|r rsv IH]; intros acc; simpl.
  - by rewrite app_nil_r.
  - rewrite IH. unfold is_running.
    destruct (decide (StateName r = "running")) as [Hr|Hr].
    + rewrite bool_decide_true, filter_cons_True by done.
      by rewrite fmap_cons, <- app_assoc.
    + by rewrite bool_decide_false, filter_cons_False by done.
Qed.

Lemma scan_response_from (resp : response) (acc : list instance) :
  foldl scan_reservation acc resp
  = acc ++ (instance_info <$> filter (λ r, StateName r = "running") (concat resp)).
Proof.
  revert acc. induction resp as [|rsv resp IH]; intros acc; simpl.
  - by rewrite app_nil_r.
  - rewrite IH, scan_reservation_spec, filter_app, fmap_app.
    by rewrite app_assoc.
Qed.

Lemma scan_response_spec (resp : response) :
  scan_response resp
  = instance_info <$> filter (λ r, StateName r = "running") (concat resp).
Proof. unfold scan_response. by rewrite scan_response_from. Qed.

(** What [get_instances] does once the provider has answered. *)
Lemma get_instances_answered (self : AWSInventoryGenerator)
    (filters : option (list filter_spec)) (resp : response) :
  ec2_client self (default [] filters) = Ok resp ->
  get_instances self filters
  = match scan_response resp with
    | [] =>
        Raise (new_from CloudProviderError
                 "Unexpected error getting EC2 instances: No running EC2 instances found"
                 (new ResourceNotFoundError "No running EC2 instances found"))
    | l => Ok l
    end.
Proof.
  intros Hresp. unfold get_instances. rewrite Hresp. simpl.
  by destruct (scan_response resp).
Qed.

(** *** The inventory loop *)

(** One iteration touches only the entries of the instance's own id. *)
Lemma add_instance_hosts (inv : inventory) (i : instance) :
  all_hosts (add_instance inv i) = <[i_id i := make_host_vars i]> (all_hosts inv).
Proof. unfold add_instance. by destruct (is_webserver i). Qed.

Lemma add_instance_webservers (inv : inventory) (i : instance) :
  webservers_hosts (add_instance inv i)
  = if is_webserver i
    then <[i_id i := make_host_vars i]> (webservers_hosts inv)
    else webservers_hosts inv.
Proof. unfold add_instance. by destruct (is_webserver i). Qed.

(** Instances with other ids leave the entries of [k] alone. *)
Lemma foldl_add_other_hosts (l : list instance) (inv : inventory) (k : string) :
  (∀ j, j ∈ l → i_id j ≠ k) →
  all_hosts (foldl add_instance inv l) !! k = all_hosts inv !! k.
Proof.
  revert inv. induction l as [|j l IH]; intros inv Hne; simpl; [done|].
  rewrite IH by (intros j' Hj'; apply Hne; by right).
  rewrite add_instance_hosts, lookup_insert_ne; [done|].
  apply Hne. by left.
Qed.

Lemma foldl_add_other_webservers (l : list instance) (inv : inventory) (k : string) :
  (∀ j, j ∈ l → i_id j ≠ k) →
  webservers_hosts (foldl add_instance inv l) !! k = webservers_hosts inv !! k.
Proof.
  revert inv. induction l as [|j l IH]; intros inv Hne; simpl; [done|].
  rewrite IH by (intros j' Hj'; apply Hne; by right).
  rewrite add_instance_webservers.
  destruct (is_webserver j); [|done].
  rewrite lookup_insert_ne; [done|]. apply Hne. by left.
Qed.

(** Non-webserver instances never change the webservers group. *)
Lemma foldl_add_plain_webservers (l : list instance) (inv : inventory) (k : string) :
  (∀ j, j ∈ l → i_id j = k → is_webserver j = false) →
  webservers_hosts (foldl add_instance inv l) !! k = webservers_hosts inv !! k.
Proof.
  revert inv. induction l as [|j l IH]; intros inv Hpl; simpl; [done|].
  rewrite IH by (intros j' Hj'; apply Hpl; by right).
  rewrite add_instance_webservers.
  destruct (is_webserver j) eqn:Hw; [|done].
  rewrite lookup_insert_ne; [done|].
  intros Hk. specialize (Hpl j (list_elem_of_here _ _) Hk). congruence.
Qed.

(** The ids recorded at the root and in the group. *)
Lemma foldl_add_dom_hosts (l : list instance) (inv : inventory) :
  dom (all_hosts (foldl add_instance inv l))
  = dom (all_hosts inv) ∪ list_to_set (i_id <$> l).
Proof.
  revert inv. induction l as [|j l IH]; intros inv; simpl.
  - set_solver.
  - rewrite IH, add_instance_hosts, dom_insert_L. set_solver.
Qed.

Lemma foldl_add_dom_webservers (l : list instance) (inv : inventory) :
  dom (webservers_hosts (foldl add_instance inv l))
  = dom (webservers_hosts inv)
    ∪ list_to_set (i_id <$> filter (λ i, is_webserver i = true) l).
Proof.
  revert inv. induction l as [|j l IH]; intros inv; simpl.
  - set_solver.
  - rewrite IH, add_instance_webservers.
    destruct (is_webserver j) eqn:Hw.
    + rewrite filter_cons_True by done. rewrite dom_insert_L. set_solver.
    + rewrite filter_cons_False by congruence. done.
Qed.

(** Every stored record was computed from an instance of the input that
    carries the id it is stored under. *)
Lemma foldl_add_origin (l : list instance) (inv : inventory)
    (k : string) (hv : host_vars) :
  all_hosts (foldl add_instance inv l) !! k = Some hv
  ∨ webservers_hosts (foldl add_instance inv l) !! k = Some hv →
  (all_hosts inv !! k = Some hv ∨ webservers_hosts inv !! k = Some hv)
  ∨ ∃ i, i ∈ l ∧ i_id i = k ∧ hv = make_host_vars i.
Proof.
  revert inv. induction l as [|j l IH]; intros inv H; simpl in *; [by left|].
  destruct (IH _ H) as [Hold|(i & Hi & Hk & Hhv)].
  - rewrite add_instance_hosts, add_instance_webservers in Hold.
    destruct (decide (i_id j = k)) as [Heq|Hne].
    + destruct Hold as [Hold|Hold].
      * rewrite Heq, lookup_insert_eq in Hold. right. exists j.
        split; [by left|]. split; [done|congruence].
      * destruct (is_webserver j); [|by left; right].
        rewrite Heq, lookup_insert_eq in Hold. right. exists j.
        split; [by left|]. split; [done|congruence].
    + left. destruct Hold as [Hold|Hold].
      * left. by rewrite lookup_insert_ne in Hold.
      * right. destruct (is_webserver j); [|done].
        by rewrite lookup_insert_ne in Hold.
  - right. exists i. split; [by right|done].
Qed.

(** The entries of an id after its last occurrence in the input. *)
Lemma build_at_last_occurrence (l1 l2 : list instance) (i : instance) :
  (∀ j, j ∈ l2 → i_id j ≠ i_id i) →
  all_hosts (build_inventory (l1 ++ i :: l2)) !! i_id i = Some (make_host_vars i)
  ∧ webservers_hosts (build_inventory (l1 ++ i :: l2)) !! i_id i
    = if is_webserver i then Some (make_host_vars i)
      else webservers_hosts (build_inventory l1) !! i_id i.
Proof.
  intros Hlast. unfold build_inventory. rewrite foldl_app. simpl. split.
  - rewrite foldl_add_other_hosts by done.
    by rewrite add_instance_hosts, lookup_insert_eq.
  - rewrite foldl_add_other_webservers by done.
    rewrite add_instance_webservers.
    destruct (is_webserver i); [by rewrite lookup_insert_eq|done].
Qed.

(** *** Claims *)

(** C1, as stated, fails on an input with a repeated id: with a webserver
    instance followed by an untagged instance of the same id, the untagged
    one is found in the webservers group too, and the two locations hold
    different host variables for the tagged one. *)
Lemma build_inventory_repeated_id_grouping :
  let l := [web_1; plain_1] in
  let inv := build_inventory l in
  (plain_1 ∈ l ∧ is_webserver plain_1 = false
   ∧ webservers_hosts inv !! i_id plain_1 ≠ None)
  ∧ (web_1 ∈ l ∧ is_webserver web_1 = true
     ∧ ¬ ∃ hv, all_hosts inv !! i_id web_1 = Some hv
               ∧ webservers_hosts inv !! i_id web_1 = Some hv).
Proof.
  simpl. split.
  - split; [by right; left|]. split; [done|]. by vm_compute.
  - split; [by left|]. split; [done|].
    intros (hv & H1 & H2). vm_compute in H1, H2. congruence.
Qed.

(** C1 (amended): every instance of the input has its id in [all.hosts],
    and every instance tagged [Role = webserver] has its id in
    [all.children.webservers.hosts] as well; when the ids of the input are
    pairwise distinct, [all.hosts] holds the instance's host variables, the
    webservers group holds the identical value exactly when the tag test
    succeeds, and holds nothing for that id otherwise. *)
Theorem build_inventory_groups (l : list instance) (i : instance) :
  i ∈ l →
  let inv := build_inventory l in
  is_Some (all_hosts inv !! i_id i)
  ∧ (is_webserver i = true → is_Some (webservers_hosts inv !! i_id i))
  ∧ (NoDup (i_id <$> l) →
     all_hosts inv !! i_id i = Some (make_host_vars i)
     ∧ webservers_hosts inv !! i_id i
       = if is_webserver i then Some (make_host_vars i) else None).
Proof.
  intros Hi inv. subst inv. split; [|split].
  - apply elem_of_dom. unfold build_inventory. rewrite foldl_add_dom_hosts.
    apply elem_of_union_r, elem_of_list_to_set, list_elem_of_fmap. eauto.
  - intros Hw. apply elem_of_dom. unfold build_inventory.
    rewrite foldl_add_dom_webservers.
    apply elem_of_union_r, elem_of_list_to_set, list_elem_of_fmap.
    exists i. split; [done|]. by apply list_elem_of_filter.
  - intros Hnd. apply list_elem_of_split in Hi as (l1 & l2 & ->).
    rewrite fmap_app, fmap_cons in Hnd.
    apply NoDup_app in Hnd as (_ & Hl1 & Hnd).
    apply NoDup_cons in Hnd as (Hl2 & _).
    assert (∀ j, j ∈ l2 → i_id j ≠ i_id i) as Hafter.
    { intros j Hj Heq. apply Hl2. rewrite <- Heq.
      apply list_elem_of_fmap. eauto. }
    assert (∀ j, j ∈ l1 → i_id j ≠ i_id i) as Hbefore.
    { intros j Hj Heq. apply (Hl1 (i_id i)).
      - rewrite <- Heq. apply list_elem_of_fmap. eauto.
      - by left. }
    destruct (build_at_last_occurrence l1 l2 i Hafter) as [Hh Hw].
    split; [done|]. rewrite Hw. destruct (is_webserver i); [done|].
    unfold build_inventory. by rewrite foldl_add_other_webservers.
Qed.

Lemma build_inventory_groups_witness :
  let inv := build_inventory [web_1; plain_2] in
  is_Some (all_hosts inv !! i_id plain_2)
  ∧ (is_webserver plain_2 = true → is_Some (webservers_hosts inv !! i_id plain_2))
  ∧ (NoDup (i_id <$> [web_1; plain_2]) →
     all_hosts inv !! i_id plain_2 = Some (make_host_vars plain_2)
     ∧ webservers_hosts inv !! i_id plain_2
       = if is_webserver plain_2 then Some (make_host_vars plain_2) else None).
Proof.
  apply (build_inventory_groups [web_1; plain_2] plain_2).
  apply list_elem_of_In. simpl. right. left. reflexivity.
Defined.

(** C2: every record of the built document was computed from an instance
    of the input carrying that id, and its [ansible_host] is that
    instance's [public_ip] when present (a non-empty string), and its
    [private_ip] otherwise; when neither is present [ansible_host] is null
    or empty.  No instance is rejected: each id of the input is in
    [all.hosts]. *)
Theorem ansible_host_public_else_private (l : list instance) :
  let inv := build_inventory l in
  (∀ i, i ∈ l → is_Some (all_hosts inv !! i_id i))
  ∧ (∀ k hv,
       all_hosts inv !! k = Some hv ∨ webservers_hosts inv !! k = Some hv →
       ∃ i, i ∈ l ∧ i_id i = k ∧ instance_id hv = k
            ∧ (∀ s, i_public_ip i = Some s → s ≠ "" → ansible_host hv = Some s)
            ∧ (i_public_ip i = None ∨ i_public_ip i = Some "" →
               ansible_host hv = i_private_ip i)
            ∧ (truthy (i_public_ip i) = false →
               truthy (i_private_ip i) = false →
               ansible_host hv = None ∨ ansible_host hv = Some "")).
Proof.
  intros inv. subst inv. split.
  - intros i Hi. apply elem_of_dom. unfold build_inventory.
    rewrite foldl_add_dom_hosts.
    apply elem_of_union_r, elem_of_list_to_set, list_elem_of_fmap. eauto.
  - intros k hv H. unfold build_inventory in H.
    apply foldl_add_origin in H as [[H|H]|(i & Hi & Hk & ->)];
      [by simpl in H; rewrite lookup_empty in H..|].
    exists i. split; [done|]. split; [done|]. split; [done|].
    simpl. unfold py_or. split; [|split].
    + intros s -> Hs. simpl. by rewrite bool_decide_false.
    + by intros [->| ->].
    + intros -> Hpriv. destruct (i_private_ip i) as [s|]; [|by left].
      right. simpl in Hpriv. apply negb_false_iff in Hpriv.
      by apply bool_decide_eq_true in Hpriv as ->.
Qed.

Lemma ansible_host_public_else_private_witness :
  let inv := build_inventory [web_1; plain_2] in
  (∀ i, i ∈ [web_1; plain_2] → is_Some (all_hosts inv !! i_id i))
  ∧ (∀ k hv,
       all_hosts inv !! k = Some hv ∨ webservers_hosts inv !! k = Some hv →
       ∃ i, i ∈ [web_1; plain_2] ∧ i_id i = k ∧ instance_id hv = k
            ∧ (∀ s, i_public_ip i = Some s → s ≠ "" → ansible_host hv = Some s)
            ∧ (i_public_ip i = None ∨ i_public_ip i = Some "" →
               ansible_host hv = i_private_ip i)
            ∧ (truthy (i_public_ip i) = false →
               truthy (i_private_ip i) = false →
               ansible_host hv = None ∨ ansible_host hv = Some "")).
Proof. exact (ansible_host_public_else_private [web_1; plain_2]). Defined.

(** Scenario A of the specification. *)
Example build_inventory_two_hosts :
  let inv := build_inventory [web_1; plain_2] in
  dom (all_hosts inv) = {[ "i-1"; "i-2" ]}
  ∧ dom (webservers_hosts inv) = {[ "i-1" ]}
  ∧ ansible_host <$> all_hosts inv !! "i-1" = Some (Some "54.0.0.1")
  ∧ ansible_host <$> all_hosts inv !! "i-2" = Some (Some "10.0.0.2")
  ∧ all_hosts inv !! "i-1" = webservers_hosts inv !! "i-1".
Proof.
  simpl. split; [|split; [|split; [|split]]]; reflexivity.
Qed.

(** An empty public address counts as absent, as [or] has it. *)
Example ansible_host_empty_public_ip :
  ansible_host
    (make_host_vars {| i_id := "i-3"; i_type := "t2.micro"; i_state := "running";
                       i_private_ip := Some "10.0.0.3"; i_public_ip := Some "";
                       i_tags := ∅ |})
  = Some "10.0.0.3".
Proof. reflexivity. Qed.

(** C4: whatever the input, every id of the webservers group is also an id
    of the root [all.hosts]. *)
Theorem webservers_subset_all_hosts (l : list instance) :
  dom (webservers_hosts (build_inventory l)) ⊆ dom (all_hosts (build_inventory l)).
Proof.
  unfold build_inventory.
  rewrite foldl_add_dom_hosts, foldl_add_dom_webservers. simpl.
  intros k. rewrite !elem_of_union, !elem_of_list_to_set, !list_elem_of_fmap.
  intros [Hk|(i & -> & Hi)]; [by left|].
  right. exists i. split; [done|]. by apply list_elem_of_filter in Hi as [_ Hi].
Qed.

(** C8: the record stored under an id is the one computed from the last
    instance of the input carrying that id, in [all.hosts] and, when that
    instance passes the tag test, in the webservers group. *)
Theorem build_inventory_last_write_wins (l1 l2 : list instance) (i : instance) :
  (∀ j, j ∈ l2 → i_id j ≠ i_id i) →
  let inv := build_inventory (l1 ++ i :: l2) in
  all_hosts inv !! i_id i = Some (make_host_vars i)
  ∧ (is_webserver i = true →
     webservers_hosts inv !! i_id i = Some (make_host_vars i)).
Proof.
  intros Hlast inv. subst inv.
  destruct (build_at_last_occurrence l1 l2 i Hlast) as [Hh Hw].
  split; [done|]. intros Htag. by rewrite Hw, Htag.
Qed.

Lemma build_inventory_last_write_wins_witness :
  let inv := build_inventory ([plain_1] ++ web_1 :: [plain_2]) in
  all_hosts inv !! i_id web_1 = Some (make_host_vars web_1)
  ∧ (is_webserver web_1 = true →
     webservers_hosts inv !! i_id web_1 = Some (make_host_vars web_1)).
Proof.
  apply (build_inventory_last_write_wins [plain_1] [plain_2] web_1).
  intros j Hj. apply list_elem_of_In in Hj. simpl in Hj.
  destruct Hj as [<-|[]]. discriminate.
Defined.

(** C7: when the provider answers, the list returned is exactly the
    normalised instances whose state is the string [running], in response
    order; instances in any other state are left out, and do not make the
    call fail as long as one instance is running. *)
Theorem get_instances_keeps_running (self : AWSInventoryGenerator)
    (filters : option (list filter_spec)) (resp : response) :
  ec2_client self (default [] filters) = Ok resp →
  let running := filter (λ r, StateName r = "running") (concat resp) in
  (running ≠ [] → get_instances self filters = Ok (instance_info <$> running))
  ∧ (∀ l, get_instances self filters = Ok l →
          l = instance_info <$> running
          ∧ Forall (λ i, i_state i = "running") l).
Proof.
  intros Hresp running. rewrite (get_instances_answered _ _ _ Hresp).
  rewrite scan_response_spec. fold running. split.
  - intros Hne. destruct running; [done|]. done.
  - intros l Hl.
    assert (l = instance_info <$> running) as ->.
    { destruct (instance_info <$> running); [done|]. by inversion Hl. }
    split; [done|]. apply Forall_fmap, Forall_forall.
    intros r Hr. by apply list_elem_of_filter in Hr as [Hr _].
Qed.

Lemma get_instances_keeps_running_witness :
  let running :=
    filter (λ r, StateName r = "running")
           (concat [[raw "i-a" "running"; raw "i-b" "stopped"];
                    [raw "i-c" "pending"; raw "i-d" "running"]]) in
  (running ≠ [] → get_instances sample_generator None = Ok (instance_info <$> running))
  ∧ (∀ l, get_instances sample_generator None = Ok l →
          l = instance_info <$> running
          ∧ Forall (λ i, i_state i = "running") l).
Proof.
  apply (get_instances_keeps_running sample_generator None). reflexivity.
Defined.

(** C3: with no running instance in the response, [get_instances] does not
    raise [ResourceNotFoundError]: that exception is raised inside the
    [try] block and caught by its own [except Exception], so what leaves
    the call is a [CloudProviderError] whose cause is the
    [ResourceNotFoundError].  [generate_inventory] turns it into an
    [InventoryError]. *)
Theorem get_instances_none_running :
  get_instances idle_generator None
  = Raise (new_from CloudProviderError
             "Unexpected error getting EC2 instances: No running EC2 instances found"
             (new ResourceNotFoundError "No running EC2 instances found"))
  ∧ (generate_inventory idle_generator (λ _, None) "inventory.json" ∅).1
    = Raise (new_from InventoryError
               "Failed to generate inventory: Unexpected error getting EC2 instances: No running EC2 instances found"
               (new_from CloudProviderError
                  "Unexpected error getting EC2 instances: No running EC2 instances found"
                  (new ResourceNotFoundError "No running EC2 instances found")))
  ∧ match (generate_inventory idle_generator (λ _, None) "inventory.json" ∅).1 with
    | Raise e =>
        exn_cls e = InventoryError
        ∧ exn_cls <$> exn_cause e = Some CloudProviderError
        ∧ wraps e ResourceNotFoundError = true
    | Ok _ => False
    end.
Proof. split; [|split]; [reflexivity..|]. simpl. by split; [|split]. Qed.

(** *** Outcomes of the listing *)

(** [get_instances] by cases on what the provider does. *)
Lemma get_instances_cases (self : AWSInventoryGenerator)
    (filters : option (list filter_spec)) :
  get_instances self filters
  = match ec2_client self (default [] filters) with
    | Ok resp =>
        match scan_response resp with
        | [] =>
            Raise (new_from CloudProviderError
                     "Unexpected error getting EC2 instances: No running EC2 instances found"
                     (new ResourceNotFoundError "No running EC2 instances found"))
        | l => Ok l
        end
    | Raise x =>
        if isinstance x ClientError
        then Raise (new_from CloudProviderError
                      ("Failed to get EC2 instances: " +:+ exn_detail x) x)
        else if isinstance x Exception
        then Raise (new_from CloudProviderError
                      ("Unexpected error getting EC2 instances: " +:+ exn_msg x) x)
        else Raise x
    end.
Proof.
  unfold get_instances.
  destruct (ec2_client self (default [] filters)) as [resp|x]; simpl.
  - by destruct (scan_response resp).
  - rewrite !orb_false_r.
    destruct (isinstance x ClientError); [done|].
    by destruct (isinstance x Exception).
Qed.

(** An [Exception] that leaves [get_instances] was made by one of its two
    handlers. *)
Lemma get_instances_raise_class (self : AWSInventoryGenerator)
    (filters : option (list filter_spec)) (e : exn) :
  get_instances self filters = Raise e →
  isinstance e Exception = true →
  exn_cls e = CloudProviderError ∧ is_Some (exn_cause e).
Proof.
  rewrite get_instances_cases.
  destruct (ec2_client self (default [] filters)) as [resp|x].
  - destruct (scan_response resp); [|discriminate].
    intros [= <-] _. simpl. eauto.
  - destruct (isinstance x ClientError); [intros [= <-] _; simpl; eauto|].
    destruct (isinstance x Exception) eqn:Hx; [intros [= <-] _; simpl; eauto|].
    intros [= <-]. congruence.
Qed.

(** X2: [get_instances] returns at least one instance or raises: an empty
    list is never returned.  Whatever [Exception] the provider raises, and
    also when no instance is running, the exception that leaves the call
    is a [CloudProviderError] carrying the original as its cause, never a
    [ResourceNotFoundError]; a [ClientError] is reported with the message
    of its error response; what is not an [Exception] passes unchanged. *)
Theorem get_instances_raises_cloud_provider_error
    (self : AWSInventoryGenerator) (filters : option (list filter_spec)) :
  (∀ l, get_instances self filters = Ok l → l ≠ [])
  ∧ (∀ e, get_instances self filters = Raise e →
       exn_cls e ≠ ResourceNotFoundError
       ∧ (isinstance e Exception = true →
          exn_cls e = CloudProviderError ∧ is_Some (exn_cause e))
       ∧ (isinstance e Exception = false →
          ec2_client self (default [] filters) = Raise e))
  ∧ (∀ x, ec2_client self (default [] filters) = Raise x →
       isinstance x ClientError = true →
       get_instances self filters
       = Raise (new_from CloudProviderError
                  ("Failed to get EC2 instances: " +:+ exn_detail x) x)).
Proof.
  split; [|split].
  - intros l. rewrite get_instances_cases.
    destruct (ec2_client self (default [] filters)) as [resp|x].
    + destruct (scan_response resp); [discriminate|]. by intros [= <-].
    + destruct (isinstance x ClientError); [discriminate|].
      destruct (isinstance x Exception); discriminate.
  - intros e He.
    destruct (isinstance e Exception) eqn:Hexc.
    + destruct (get_instances_raise_class _ _ _ He Hexc) as [Hcls Hcause].
      split; [by rewrite Hcls|]. split; [done|discriminate].
    + split.
      * intros Hcls. unfold isinstance in Hexc. rewrite Hcls in Hexc.
        by vm_compute in Hexc.
      * split; [discriminate|]. intros _.
        rewrite get_instances_cases in He.
        destruct (ec2_client self (default [] filters)) as [resp|x].
        -- destruct (scan_response resp); [|discriminate].
           injection He as <-. by vm_compute in Hexc.
        -- destruct (isinstance x ClientError);
             [injection He as <-; by vm_compute in Hexc|].
           destruct (isinstance x Exception);
             [injection He as <-; by vm_compute in Hexc|].
           by injection He as <-.
  - intros x Hx Hc. rewrite get_instances_cases, Hx. by rewrite Hc.
Qed.

(** *** Tags *)

Lemma tags_dict_snoc (ts : list (string * string)) (t : string * string) :
  tags_dict (ts ++ [t]) = <[t.1 := t.2]> (tags_dict ts).
Proof. unfold tags_dict. by rewrite foldl_app. Qed.

(** The tag dict maps a key to the value of its last occurrence in the tag
    list. *)
Lemma tags_dict_lookup (ts : list (string * string)) (k v : string) :
  tags_dict ts !! k = Some v
  ↔ ∃ ts1 ts2, ts = ts1 ++ (k, v) :: ts2 ∧ k ∉ ts2.*1.
Proof.
  split.
  - induction ts as [|t ts IH] using rev_ind; [done|].
    rewrite tags_dict_snoc. destruct (decide (t.1 = k)) as [Hk|Hk].
    + rewrite Hk, lookup_insert_eq. intros [= Hv].
      exists ts, []. split; [|set_solver].
      destruct t as [a b]; simpl in *. by subst.
    + rewrite lookup_insert_ne by done. intros H.
      destruct (IH H) as (ts1 & ts2 & -> & Hnot).
      exists ts1, (ts2 ++ [t]). split; [by rewrite <- app_assoc|].
      rewrite fmap_app. set_solver.
  - intros (ts1 & ts2 & -> & Hnot).
    induction ts2 as [|t ts2 IH] using rev_ind.
    + by rewrite tags_dict_snoc, lookup_insert_eq.
    + rewrite fmap_app in Hnot.
      replace (ts1 ++ (k, v) :: ts2 ++ [t]) with ((ts1 ++ (k, v) :: ts2) ++ [t])
        by (by rewrite <- app_assoc).
      rewrite tags_dict_snoc, lookup_insert_ne by set_solver.
      apply IH. set_solver.
Qed.

(** X3: an instance of the response passes the webserver test exactly
    when its tag list has a [Role] tag and the last one has the value
    [webserver]; an instance whose response has no [Tags] key never
    passes. *)
Theorem role_tag_last_value_decides (r : raw_instance) :
  (is_webserver (instance_info r) = true
   ↔ ∃ ts1 ts2, Tags r = Some (ts1 ++ ("Role", "webserver") :: ts2)
                ∧ "Role" ∉ ts2.*1)
  ∧ (Tags r = None → is_webserver (instance_info r) = false).
Proof.
  unfold is_webserver, instance_info. simpl. split.
  - rewrite bool_decide_eq_true, tags_dict_lookup.
    destruct (Tags r) as [ts|]; simpl.
    + split.
      * intros (ts1 & ts2 & -> & Hnot). eauto.
      * intros (ts1 & ts2 & [= ->] & Hnot). eauto.
    + split.
      * intros (ts1 & ts2 & H & _). by destruct ts1.
      * intros (ts1 & ts2 & H & _). done.
  - intros ->. done.
Qed.

(** *** Outcomes of the generation *)

Lemma generate_inventory_cases (self : AWSInventoryGenerator)
    (open_w : string → option exn) (output_file : string) (d : disk) :
  generate_inventory self open_w output_file d
  = match get_instances self None with
    | Ok l =>
        match open_w output_file with
        | None => (Ok (), <[output_file := build_inventory l]> d)
        | Some x =>
            (if isinstance x OSError
             then Raise (new_from InventoryError
                           ("Unexpected error generating inventory: "
                            +:+ ("Failed to write inventory file: " +:+ exn_msg x))
                           (new_from InventoryError
                              ("Failed to write inventory file: " +:+ exn_msg x) x))
             else if isinstance x CloudProviderError
                     || isinstance x ResourceNotFoundError
             then Raise (new_from InventoryError
                           ("Failed to generate inventory: " +:+ exn_msg x) x)
             else if isinstance x Exception
             then Raise (new_from InventoryError
                           ("Unexpected error generating inventory: " +:+ exn_msg x) x)
             else Raise x, d)
        end
    | Raise x =>
        (if isinstance x CloudProviderError || isinstance x ResourceNotFoundError
         then Raise (new_from InventoryError
                       ("Failed to generate inventory: " +:+ exn_msg x) x)
         else if isinstance x Exception
         then Raise (new_from InventoryError
                       ("Unexpected error generating inventory: " +:+ exn_msg x) x)
         else Raise x, d)
    end.
Proof.
  unfold generate_inventory.
  destruct (get_instances self None) as [l|x]; simpl.
  - destruct (open_w output_file) as [x|]; simpl; [|done].
    rewrite ?orb_false_r, orb_diag.
    destruct (isinstance x OSError); simpl; [done|].
    rewrite ?orb_false_r.
    destruct (isinstance x CloudProviderError || isinstance x ResourceNotFoundError);
      [done|].
    by destruct (isinstance x Exception).
  - rewrite ?orb_false_r.
    destruct (isinstance x CloudProviderError || isinstance x ResourceNotFoundError);
      [done|].
    by destruct (isinstance x Exception).
Qed.

(** X4: [generate_inventory] returns exactly when the provider answers
    with at least one running instance and the output file can be written;
    the file then holds the document built from the running instances, in
    response order, and no other path is touched. *)
Theorem generate_inventory_success (self : AWSInventoryGenerator)
    (open_w : string → option exn) (output_file : string) (d : disk) :
  (∀ resp,
     ec2_client self [] = Ok resp →
     filter (λ r, StateName r = "running") (concat resp) ≠ [] →
     open_w output_file = None →
     generate_inventory self open_w output_file d
     = (Ok (),
        <[output_file :=
            build_inventory
              (instance_info <$> filter (λ r, StateName r = "running") (concat resp))]> d))
  ∧ (∀ u d',
       generate_inventory self open_w output_file d = (Ok u, d') →
       open_w output_file = None
       ∧ (∀ p, p ≠ output_file → d' !! p = d !! p)
       ∧ ∃ resp,
           ec2_client self [] = Ok resp
           ∧ filter (λ r, StateName r = "running") (concat resp) ≠ []
           ∧ d' !! output_file
             = Some (build_inventory
                       (instance_info
                          <$> filter (λ r, StateName r = "running") (concat resp)))).
Proof.
  split.
  - intros resp Hresp Hrun Hw.
    rewrite generate_inventory_cases, get_instances_cases. simpl.
    rewrite Hresp, scan_response_spec, Hw.
    destruct (filter _ (concat resp)) as [|r rs]; [done|]. done.
  - intros u d'. rewrite generate_inventory_cases, get_instances_cases. simpl.
    destruct (ec2_client self []) as [resp|x].
    + rewrite scan_response_spec.
      destruct (filter _ (concat resp)) as [|r rs] eqn:Hrun; simpl.
      { intros [= ]. }
      destruct (open_w output_file) as [x|].
      * destruct (isinstance x OSError); [intros [= ]|].
        destruct (_ || _); [intros [= ]|].
        destruct (isinstance x Exception); intros [= ].
      * intros [= <- <-]. split; [done|]. split.
        -- intros p Hp. by rewrite lookup_insert_ne.
        -- exists resp. rewrite Hrun. split; [done|]. split; [done|].
           by rewrite lookup_insert_eq.
    + destruct (isinstance x ClientError); simpl; [intros [= ]|].
      destruct (isinstance x Exception); simpl; [intros [= ]|].
      destruct (_ || _); [intros [= ]|].
      destruct (isinstance x Exception); intros [= ].
Qed.

(** X5: every [Exception] that leaves [generate_inventory] is an
    [InventoryError] carrying its cause.  When the listing fails, the
    message starts with "Failed to generate inventory: ", the cause is the
    [CloudProviderError] of the listing, and no file is opened. *)
Theorem generate_inventory_raises_inventory_error (self : AWSInventoryGenerator)
    (open_w : string → option exn) (output_file : string) (d : disk) :
  (∀ e, (generate_inventory self open_w output_file d).1 = Raise e →
        isinstance e Exception = true →
        exn_cls e = InventoryError ∧ is_Some (exn_cause e))
  ∧ (∀ x, get_instances self None = Raise x →
          isinstance x Exception = true →
          exn_cls x = CloudProviderError
          ∧ generate_inventory self open_w output_file d
            = (Raise (new_from InventoryError
                        ("Failed to generate inventory: " +:+ exn_msg x) x), d)).
Proof.
  split.
  - intros e. rewrite generate_inventory_cases.
    destruct (get_instances self None) as [l|x].
    + destruct (open_w output_file) as [x|]; simpl; [|discriminate].
      destruct (isinstance x OSError); [intros [= <-] _; simpl; eauto|].
      destruct (_ || _); [intros [= <-] _; simpl; eauto|].
      destruct (isinstance x Exception) eqn:Hx; [intros [= <-] _; simpl; eauto|].
      intros [= <-]. congruence.
    + simpl. destruct (_ || _); [intros [= <-] _; simpl; eauto|].
      destruct (isinstance x Exception) eqn:Hx; [intros [= <-] _; simpl; eauto|].
      intros [= <-]. congruence.
  - intros x Hx Hexc.
    destruct (get_instances_raise_class _ _ _ Hx Hexc) as [Hcls _].
    split; [done|].
    rewrite generate_inventory_cases, Hx.
    unfold isinstance. rewrite Hcls. done.
Qed.

(** X6: when the output file cannot be written, the [InventoryError] made
    for the write failure is caught again by the enclosing
    [except Exception]: what leaves the call is an [InventoryError] whose
    message is "Unexpected error generating inventory: Failed to write
    inventory file: ..." and whose cause is the first [InventoryError],
    itself caused by the [OSError]. *)
Theorem generate_inventory_write_failure (self : AWSInventoryGenerator)
    (open_w : string → option exn) (output_file : string) (d : disk)
    (l : list instance) (x : exn) :
  get_instances self None = Ok l →
  open_w output_file = Some x →
  isinstance x OSError = true →
  (generate_inventory self open_w output_file d).1
  = Raise (new_from InventoryError
             ("Unexpected error generating inventory: "
              +:+ ("Failed to write inventory file: " +:+ exn_msg x))
             (new_from InventoryError
                ("Failed to write inventory file: " +:+ exn_msg x) x)).
Proof.
  intros Hl Hw Hx. rewrite generate_inventory_cases, Hl, Hw. simpl.
  by rewrite Hx.
Qed.

(** *** Outcomes of [generate_aws_inventory] *)

Lemma init_cases (sdk : string → res (list filter_spec → res response))
    (rgn : string) :
  init sdk rgn
  = match sdk rgn with
    | Ok c => Ok {| region := rgn; ec2_client := c |}
    | Raise x =>
        if isinstance x NoCredentialsError || isinstance x PartialCredentialsError
        then Raise (new_from AuthenticationError
                      ("AWS credentials not found or incomplete. " +:+
                       "Please set AWS_ACCESS_KEY_ID and AWS_SECRET_ACCESS_KEY environment variables.")
                      x)
        else if isinstance x ClientError
        then Raise (new_from CloudProviderError
                      ("Failed to initialize AWS client: " +:+ exn_msg x) x)
        else if isinstance x Exception
        then Raise (new_from CloudProviderError
                      ("Unexpected error initializing AWS client: " +:+ exn_msg x) x)
        else Raise x
    end.
Proof.
  unfold init. destruct (sdk rgn) as [c|x]; simpl; [done|].
  rewrite ?orb_false_r.
  destruct (_ || _); [done|].
  destruct (isinstance x ClientError); [done|].
  by destruct (isinstance x Exception).
Qed.

(** The two clauses that close [generate_aws_inventory]. *)
Lemma reraise_or_wrap (A : Type) (e0 e : exn) :
  dispatch (A := A)
    [ ([CloudProviderError; InventoryError], λ e, Raise e);
      ([Exception], λ e,
         Raise (new_from InventoryError ("Unexpected error: " +:+ exn_msg e) e)) ]
    e0 = Raise e →
  isinstance e Exception = true →
  exn_cls e = CloudProviderError ∨ exn_cls e = InventoryError.
Proof.
  simpl. rewrite ?orb_false_r.
  destruct (isinstance e0 CloudProviderError) eqn:H1; simpl.
  { intros [= <-] _. left. apply PyProofs.issubclass_leaf; [|done].
    apply list_elem_of_In. simpl. tauto. }
  destruct (isinstance e0 InventoryError) eqn:H2; simpl.
  { intros [= <-] _. right. apply PyProofs.issubclass_leaf; [|done].
    apply list_elem_of_In. simpl. tauto. }
  destruct (isinstance e0 Exception) eqn:H3.
  - intros [= <-] _. by right.
  - intros [= <-]. congruence.
Qed.

(** X7: whatever the SDK calls, the listing and the write do, an
    [Exception] that leaves [generate_aws_inventory] is of class
    [CloudProviderError] or [InventoryError] exactly. *)
Theorem generate_aws_inventory_error_classes
    (client : string → res (list filter_spec → res response))
    (resource : string → res unit)
    (open_w : string → option exn) (rgn output_file : string) (d : disk)
    (e : exn) :
  (generate_aws_inventory (boto3_session client resource) open_w
     rgn output_file d).1 = Raise e →
  isinstance e Exception = true →
  exn_cls e = CloudProviderError ∨ exn_cls e = InventoryError.
Proof.
  unfold generate_aws_inventory.
  destruct (init _ rgn) as [g|x].
  - destruct (generate_inventory g open_w output_file d) as [[u|e0] d']; simpl;
      [discriminate|].
    apply reraise_or_wrap.
  - simpl fst. apply reraise_or_wrap.
Qed.

(** X8: when creating the EC2 client fails with an [Exception], nothing is
    listed and nothing is written.  Missing or partial credentials leave
    [generate_aws_inventory] as an [InventoryError] that wraps the
    [AuthenticationError] of the constructor; any other failure leaves it
    as the [CloudProviderError] of the constructor. *)
Theorem generate_aws_inventory_init_failure
    (client : string → res (list filter_spec → res response))
    (resource : string → res unit)
    (open_w : string → option exn) (rgn output_file : string) (d : disk)
    (x : exn) :
  client rgn = Raise x →
  isinstance x Exception = true →
  let credentials_message :=
    "AWS credentials not found or incomplete. " +:+
    "Please set AWS_ACCESS_KEY_ID and AWS_SECRET_ACCESS_KEY environment variables." in
  generate_aws_inventory (boto3_session client resource) open_w rgn output_file d
  = (Raise
       (if isinstance x NoCredentialsError || isinstance x PartialCredentialsError
        then new_from InventoryError
               ("Unexpected error: " +:+ credentials_message)
               (new_from AuthenticationError credentials_message x)
        else if isinstance x ClientError
        then new_from CloudProviderError
               ("Failed to initialize AWS client: " +:+ exn_msg x) x
        else new_from CloudProviderError
               ("Unexpected error initializing AWS client: " +:+ exn_msg x) x),
     d).
Proof.
  intros Hx Hexc msg. unfold generate_aws_inventory.
  rewrite init_cases. unfold boto3_session at 1. rewrite Hx. simpl.
  destruct (_ || _); [done|].
  destruct (isinstance x ClientError); [done|].
  by rewrite Hexc.
Qed.

(** *** More on the inventory loop *)

(** The entries of an id that occurs once. *)
Lemma build_at_only_occurrence (l : list instance) (i : instance) :
  i ∈ l → NoDup (i_id <$> l) →
  all_hosts (build_inventory l) !! i_id i = Some (make_host_vars i)
  ∧ webservers_hosts (build_inventory l) !! i_id i
    = if is_webserver i then Some (make_host_vars i) else None.
Proof.
  intros Hi Hnd. apply list_elem_of_split in Hi as (l1 & l2 & ->).
  rewrite fmap_app, fmap_cons in Hnd.
  apply NoDup_app in Hnd as (_ & Hl1 & Hnd).
  apply NoDup_cons in Hnd as (Hl2 & _).
  assert (∀ j, j ∈ l2 → i_id j ≠ i_id i) as Hafter.
  { intros j Hj Heq. apply Hl2. rewrite <- Heq.
    apply list_elem_of_fmap. eauto. }
  assert (∀ j, j ∈ l1 → i_id j ≠ i_id i) as Hbefore.
  { intros j Hj Heq. apply (Hl1 (i_id i)).
    - rewrite <- Heq. apply list_elem_of_fmap. eauto.
    - by left. }
  destruct (build_at_last_occurrence l1 l2 i Hafter) as [Hh Hw].
  split; [done|]. rewrite Hw. destruct (is_webserver i); [done|].
  unfold build_inventory. by rewrite foldl_add_other_webservers.
Qed.

(** With distinct ids, what is stored under a key is determined by
    membership in the input alone. *)
Lemma build_lookup_hosts (l : list instance) (k : string) (hv : host_vars) :
  NoDup (i_id <$> l) →
  all_hosts (build_inventory l) !! k = Some hv
  ↔ ∃ i, i ∈ l ∧ i_id i = k ∧ hv = make_host_vars i.
Proof.
  intros Hnd. split.
  - intros H. unfold build_inventory in H.
    destruct (foldl_add_origin l empty_inventory k hv (or_introl H))
      as [[H0|H0]|Hi]; [by simpl in H0; rewrite lookup_empty in H0..|done].
  - intros (i & Hi & <- & ->).
    by destruct (build_at_only_occurrence l i Hi Hnd).
Qed.

Lemma build_lookup_webservers (l : list instance) (k : string) (hv : host_vars) :
  NoDup (i_id <$> l) →
  webservers_hosts (build_inventory l) !! k = Some hv
  ↔ ∃ i, i ∈ l ∧ i_id i = k ∧ is_webserver i = true ∧ hv = make_host_vars i.
Proof.
  intros Hnd. split.
  - intros H. unfold build_inventory in H.
    destruct (foldl_add_origin l empty_inventory k hv (or_intror H))
      as [[H0|H0]|(i & Hi & <- & ->)];
      [by simpl in H0; rewrite lookup_empty in H0..|].
    exists i. split; [done|]. split; [done|]. split; [|done].
    destruct (build_at_only_occurrence l i Hi Hnd) as [_ Hw].
    fold (build_inventory l) in H. rewrite Hw in H.
    by destruct (is_webserver i).
  - intros (i & Hi & <- & Hweb & ->).
    destruct (build_at_only_occurrence l i Hi Hnd) as [_ Hw].
    by rewrite Hw, Hweb.
Qed.

Lemma inventory_eq (a b : inventory) :
  all_hosts a = all_hosts b → webservers_hosts a = webservers_hosts b → a = b.
Proof. destruct a, b. simpl. by intros -> ->. Qed.

(** X9: when the ids of the listed instances are pairwise distinct, the
    document does not depend on the order in which they are listed. *)
Theorem build_inventory_order_independent (l1 l2 : list instance) :
  NoDup (i_id <$> l1) → l1 ≡ₚ l2 →
  build_inventory l1 = build_inventory l2.
Proof.
  intros Hnd Hperm.
  assert (NoDup (i_id <$> l2)) as Hnd2 by (by rewrite <- Hperm).
  apply inventory_eq; apply map_eq; intros k; apply option_eq; intros hv.
  - rewrite !build_lookup_hosts by done.
    split; intros (i & Hi & H); exists i; (split; [|done]);
      [by rewrite <- Hperm|by rewrite Hperm].
  - rewrite !build_lookup_webservers by done.
    split; intros (i & Hi & H); exists i; (split; [|done]);
      [by rewrite <- Hperm|by rewrite Hperm].
Qed.

(** X10: the record of the webservers group under an id is the one of the
    last instance with that id that passes the tag test, however many
    instances with the same id and without the tag come after it: the
    group never loses or refreshes an entry on their account. *)
Theorem webservers_keeps_last_tagged (l1 l2 : list instance) (i : instance) :
  is_webserver i = true →
  (∀ j, j ∈ l2 → i_id j = i_id i → is_webserver j = false) →
  webservers_hosts (build_inventory (l1 ++ i :: l2)) !! i_id i
  = Some (make_host_vars i).
Proof.
  intros Hweb Hlater. unfold build_inventory. rewrite foldl_app. simpl.
  rewrite foldl_add_plain_webservers by done.
  by rewrite add_instance_webservers, Hweb, lookup_insert_eq.
Qed.

(** X11: in a document that [generate_inventory] has written, the ids of
    [all.hosts] are exactly the ids of the running instances of the
    response, there is at least one, and the ids of the webservers group
    are exactly those of the running instances that pass the tag test. *)
Theorem generate_inventory_lists_running_hosts (self : AWSInventoryGenerator)
    (open_w : string → option exn) (output_file : string) (d d' : disk)
    (u : unit) :
  generate_inventory self open_w output_file d = (Ok u, d') →
  ∃ resp doc,
    ec2_client self [] = Ok resp
    ∧ d' !! output_file = Some doc
    ∧ all_hosts doc ≠ ∅
    ∧ (∀ k, k ∈ dom (all_hosts doc)
            ↔ ∃ r, r ∈ concat resp ∧ InstanceId r = k
                   ∧ StateName r = "running")
    ∧ (∀ k, k ∈ dom (webservers_hosts doc)
            ↔ ∃ r, r ∈ concat resp ∧ InstanceId r = k
                   ∧ StateName r = "running"
                   ∧ is_webserver (instance_info r) = true).
Proof.
  rewrite generate_inventory_cases, get_instances_cases. simpl.
  destruct (ec2_client self []) as [resp|x].
  - rewrite scan_response_spec.
    destruct (filter _ (concat resp)) as [|r0 rs] eqn:Hrun; simpl.
    { intros [= ]. }
    destruct (open_w output_file) as [x|].
    { destruct (isinstance x OSError); [intros [= ]|].
      destruct (_ || _); [intros [= ]|].
      destruct (isinstance x Exception); intros [= ]. }
    intros [= <- <-]. exists resp. eexists. split; [done|].
    split; [by rewrite lookup_insert_eq|].
    rewrite <- fmap_cons, <- Hrun. unfold build_inventory.
    split; [|split].
    + intros Hempty. apply (f_equal dom) in Hempty.
      rewrite foldl_add_dom_hosts, Hrun in Hempty. set_solver.
    + intros k. rewrite foldl_add_dom_hosts. simpl.
      rewrite elem_of_union, elem_of_list_to_set, <- list_fmap_compose.
      rewrite list_elem_of_fmap. split.
      * intros [Hk|(r & -> & Hr)]; [set_solver|].
        apply list_elem_of_filter in Hr as [Hst Hr]. eauto.
      * intros (r & Hr & <- & Hst). right. exists r. split; [done|].
        by apply list_elem_of_filter.
    + intros k. rewrite foldl_add_dom_webservers. simpl.
      rewrite elem_of_union, elem_of_list_to_set, list_elem_of_fmap. split.
      * intros [Hk|(i & -> & Hi)]; [set_solver|].
        apply list_elem_of_filter in Hi as [Hweb Hi].
        apply list_elem_of_fmap in Hi as (r & -> & Hr).
        apply list_elem_of_filter in Hr as [Hst Hr]. eauto.
      * intros (r & Hr & <- & Hst & Hweb). right.
        exists (instance_info r). split; [done|].
        apply list_elem_of_filter. split; [done|].
        apply list_elem_of_fmap. exists r. split; [done|].
        by apply list_elem_of_filter.
  - destruct (isinstance x ClientError); simpl; [intros [= ]|].
    destruct (isinstance x Exception); simpl; [intros [= ]|].
    destruct (_ || _); [intros [= ]|].
    destruct (isinstance x Exception); intros [= ].
Qed.

(** X12: every record of the document, at the root or in the group, has
    [ansible_user] set to [ubuntu], carries the id it is stored under, and
    has the instance type of an instance of the input with that id. *)
Theorem build_inventory_record_fields (l : list instance) (k : string)
    (hv : host_vars) :
  all_hosts (build_inventory l) !! k = Some hv
  ∨ webservers_hosts (build_inventory l) !! k = Some hv →
  ansible_user hv = "ubuntu"
  ∧ instance_id hv = k
  ∧ ∃ i, i ∈ l ∧ i_id i = k ∧ instance_type hv = i_type i.
Proof.
  intros H. unfold build_inventory in H.
  apply foldl_add_origin in H as [[H|H]|(i & Hi & Hk & ->)];
    [by simpl in H; rewrite lookup_empty in H..|].
  split; [done|]. split; [done|]. eauto.
Qed.

(** *** The properties above on the sample data *)

Lemma get_instances_raises_cloud_provider_error_witness :
  exn_cls none_running_error ≠ ResourceNotFoundError
  ∧ (isinstance none_running_error Exception = true →
     exn_cls none_running_error = CloudProviderError
     ∧ is_Some (exn_cause none_running_error))
  ∧ (isinstance none_running_error Exception = false →
     ec2_client idle_generator (default [] None) = Raise none_running_error).
Proof.
  apply (proj1 (proj2 (get_instances_raises_cloud_provider_error
                         idle_generator None))).
  reflexivity.
Defined.

Lemma role_tag_last_value_decides_witness :
  is_webserver (instance_info (raw "i-a" "running")) = false.
Proof.
  apply (proj2 (role_tag_last_value_decides (raw "i-a" "running"))).
  reflexivity.
Defined.

Lemma generate_inventory_success_witness :
  generate_inventory sample_generator (λ _, None) "inventory.json" ∅
  = (Ok (),
     <["inventory.json" :=
         build_inventory
           (instance_info
              <$> filter (λ r, StateName r = "running")
                    (concat [[raw "i-a" "running"; raw "i-b" "stopped"];
                             [raw "i-c" "pending"; raw "i-d" "running"]]))]> ∅).
Proof.
  apply (proj1 (generate_inventory_success sample_generator (λ _, None)
                  "inventory.json" ∅));
    [reflexivity|by vm_compute|reflexivity].
Defined.

Lemma generate_inventory_raises_inventory_error_witness :
  exn_cls none_running_error = CloudProviderError
  ∧ generate_inventory idle_generator (λ _, None) "inventory.json" ∅
    = (Raise (new_from InventoryError
                ("Failed to generate inventory: " +:+ exn_msg none_running_error)
                none_running_error), ∅).
Proof.
  apply (proj2 (generate_inventory_raises_inventory_error idle_generator
                  (λ _, None) "inventory.json" ∅));
    reflexivity.
Defined.

Lemma generate_inventory_write_failure_witness :
  (generate_inventory sample_generator (λ _, Some permission_denied)
     "inventory.json" ∅).1
  = Raise (new_from InventoryError
             ("Unexpected error generating inventory: "
              +:+ ("Failed to write inventory file: " +:+ exn_msg permission_denied))
             (new_from InventoryError
                ("Failed to write inventory file: " +:+ exn_msg permission_denied)
                permission_denied)).
Proof.
  eapply (generate_inventory_write_failure sample_generator
            (λ _, Some permission_denied) "inventory.json" ∅);
    reflexivity.
Defined.

Lemma generate_aws_inventory_error_classes_witness :
  exn_cls credentials_failure = CloudProviderError
  ∨ exn_cls credentials_failure = InventoryError.
Proof.
  apply (generate_aws_inventory_error_classes
           (λ _, Raise no_credentials) (λ _, Ok ()) (λ _, None)
           "us-west-2" "inventory.json" ∅ credentials_failure);
    reflexivity.
Defined.

Lemma generate_aws_inventory_init_failure_witness :
  generate_aws_inventory
    (boto3_session (λ _, Raise no_credentials) (λ _, Ok ())) (λ _, None)
    "us-west-2" "inventory.json" ∅
  = (Raise credentials_failure, ∅).
Proof.
  apply (generate_aws_inventory_init_failure
           (λ _, Raise no_credentials) (λ _, Ok ()) (λ _, None)
           "us-west-2" "inventory.json" ∅ no_credentials);
    reflexivity.
Defined.

Lemma build_inventory_order_independent_witness :
  build_inventory [web_1; plain_2] = build_inventory [plain_2; web_1].
Proof.
  apply build_inventory_order_independent; [|apply perm_swap].
  simpl. apply NoDup_cons. split; [|apply NoDup_singleton].
  intros H. apply list_elem_of_In in H. simpl in H. by destruct H as [H|[]].
Defined.

(** With a repeated id the order matters. *)
Example build_inventory_order_matters :
  build_inventory [web_1; plain_1] ≠ build_inventory [plain_1; web_1].
Proof.
  intros H. apply (f_equal (λ inv, all_hosts inv !! "i-1")) in H.
  vm_compute in H. discriminate.
Qed.

Lemma webservers_keeps_last_tagged_witness :
  webservers_hosts (build_inventory ([] ++ web_1 :: [plain_1])) !! i_id web_1
  = Some (make_host_vars web_1).
Proof.
  apply webservers_keeps_last_tagged; [reflexivity|].
  intros j Hj _. apply list_elem_of_In in Hj. simpl in Hj.
  by destruct Hj as [<-|[]].
Defined.

Lemma generate_inventory_lists_running_hosts_witness :
  ∃ resp doc,
    ec2_client sample_generator [] = Ok resp
    ∧ (generate_inventory sample_generator (λ _, None) "inventory.json" ∅).2
        !! "inventory.json" = Some doc
    ∧ all_hosts doc ≠ ∅
    ∧ (∀ k, k ∈ dom (all_hosts doc)
            ↔ ∃ r, r ∈ concat resp ∧ InstanceId r = k
                   ∧ StateName r = "running")
    ∧ (∀ k, k ∈ dom (webservers_hosts doc)
            ↔ ∃ r, r ∈ concat resp ∧ InstanceId r = k
                   ∧ StateName r = "running"
                   ∧ is_webserver (instance_info r) = true).
Proof.
  apply (generate_inventory_lists_running_hosts sample_generator (λ _, None)
           "inventory.json" ∅ _ ()).
  reflexivity.
Defined.

Lemma build_inventory_record_fields_witness :
  ansible_user (make_host_vars web_1) = "ubuntu"
  ∧ instance_id (make_host_vars web_1) = "i-1"
  ∧ ∃ i, i ∈ [web_1; plain_2] ∧ i_id i = "i-1"
         ∧ instance_type (make_host_vars web_1) = i_type i.
Proof.
  apply (build_inventory_record_fields [web_1; plain_2] "i-1"
           (make_host_vars web_1)).
  left. reflexivity.
Defined.

End InventoryProofs.

(* ===================================================================== *)
(** ** Properties of the SSH key manager *)
(* ===================================================================== *)

Module SSHProofs.
Import SSH Samples.

(** *** Strings and paths *)

Lemma append_cons (a : ascii) (s t : string) :
  String a s +:+ t = String a (s +:+ t).
Proof. reflexivity. Qed.

Lemma append_nil_r (s : string) : s +:+ "" = s.
Proof. induction s as [|a s IH]; [done|]. by rewrite append_cons, IH. Qed.

Lemma append_assoc (s t u : string) : (s +:+ t) +:+ u = s +:+ t +:+ u.
Proof. induction s as [|a s IH]; [done|]. by rewrite !append_cons, IH. Qed.


(** Joining then adding the suffix is joining the suffixed name: the
    public key path of [generate_key_pair] is that of [get_public_key]. *)
Lemma path_join_pub (d n : string) :
  path_join d (n +:+ ".pub") = path_join d n +:+ ".pub".
Proof.
  unfold path_join. destruct n as [|a n].
  - change ("" +:+ ".pub") with ".pub". simpl.
    destruct (bool_decide (d = "") || endswith_sep d).
    + by rewrite append_nil_r.
    + by rewrite !append_assoc.
  - rewrite append_cons. simpl. case_bool_decide; [done|].
    destruct (bool_decide (d = "") || endswith_sep d);
      by rewrite ?append_assoc, ?append_cons.
Qed.


(** *** Files *)

Lemma path_exists_insert (fs : gmap string node) (p q : string) (n : node) :
  path_exists fs p = true → path_exists (<[q := n]> fs) p = true.
Proof.
  unfold path_exists. rewrite !bool_decide_eq_true.
  intros Hp. apply lookup_insert_is_Some.
  destruct (decide (q = p)); [by left|by right].
Qed.

Lemma path_exists_insert_eq (fs : gmap string node) (p : string) (n : node) :
  path_exists (<[p := n]> fs) p = true.
Proof.
  unfold path_exists. rewrite bool_decide_eq_true, lookup_insert_eq. eauto.
Qed.

Lemma chmod_ok (path : string) (m : N) (w w' : world) (u : unit) :
  chmod path m w = (Ok u, w') →
  w_calls w' = w_calls w
  ∧ ∃ n, w_fs w' = <[path := n]> (w_fs w).
Proof.
  unfold chmod. destruct (w_fs w !! path) as [[m' d|m']|]; intros H;
    inversion H; subst; simpl; eauto.
Qed.

Section Manager.

Variable spawn :
  list string -> option Z -> gmap string node -> proc_outcome * gmap string node.

(** A call of [generate_key_pair] that returns has returned the two paths
    derived from the name, and leaves the private key file in place. *)
Lemma generate_key_pair_returns (self : SSHManager) (key_name : string)
    (passphrase : option string) (w0 w1 : world) (p : string * string) :
  generate_key_pair spawn self key_name passphrase w0 = (Ok p, w1) →
  p = (path_join (key_dir self) key_name,
       path_join (key_dir self) key_name +:+ ".pub")
  ∧ path_exists (w_fs w1) (path_join (key_dir self) key_name) = true.
Proof.
  unfold generate_key_pair.
  destruct (path_exists (w_fs w0) _) eqn:Hex.
  { intros [= <- <-]. done. }
  unfold try_M, bind_M, subprocess_run.
  destruct (spawn _ _ _) as [o fs'].
  destruct o as [rc out err| |e]; simpl.
  - destruct (rc =? 0)%Z; simpl; [|discriminate].
    destruct (chmod _ 384 _) as [[u1|e1] w2] eqn:Hc1.
    + destruct (chmod _ 420 w2) as [[u2|e2] w3] eqn:Hc2.
      * unfold ret_M. intros [= <- <-].
        apply chmod_ok in Hc1 as (_ & n1 & Hfs1).
        apply chmod_ok in Hc2 as (_ & n2 & Hfs2).
        split; [done|]. rewrite Hfs2, Hfs1.
        apply path_exists_insert, path_exists_insert_eq.
      * unfold chmod in Hc2.
        destruct (w_fs w2 !! _) as [[m' d|m']|]; inversion Hc2; subst.
        simpl. discriminate.
    + unfold chmod in Hc1. simpl in Hc1.
      destruct (fs' !! _) as [[m' d|m']|]; inversion Hc1; subst.
      simpl. discriminate.
  - discriminate.
  - destruct (isinstance e CalledProcessError); simpl; [by unfold raise_M|].
    destruct (isinstance e OSError); by unfold raise_M.
Qed.

(** C5: when the private key file of a name exists, [generate_key_pair]
    returns the private and public key paths and leaves the world as it
    was: no file is touched and no command is handed to [subprocess.run].
    So a call made after one that returned gives the same pair of paths,
    whatever the passphrases, without invoking key generation again. *)
Theorem generate_key_pair_idempotent (self : SSHManager) (key_name : string) :
  let private_key_path := path_join (key_dir self) key_name in
  let public_key_path := private_key_path +:+ ".pub" in
  (∀ passphrase w,
     path_exists (w_fs w) private_key_path = true →
     generate_key_pair spawn self key_name passphrase w
     = (Ok (private_key_path, public_key_path), w))
  ∧ (∀ pass0 pass1 w0 w1 p,
       generate_key_pair spawn self key_name pass0 w0 = (Ok p, w1) →
       generate_key_pair spawn self key_name pass1 w1 = (Ok p, w1)
       ∧ w_calls (generate_key_pair spawn self key_name pass1 w1).2 = w_calls w1).
Proof.
  intros private_key_path public_key_path.
  assert (∀ passphrase w,
     path_exists (w_fs w) private_key_path = true →
     generate_key_pair spawn self key_name passphrase w
     = (Ok (private_key_path, public_key_path), w)) as Hpresent.
  { intros passphrase w Hex. unfold generate_key_pair.
    fold private_key_path. by rewrite Hex. }
  split; [done|].
  intros pass0 pass1 w0 w1 p Hfirst.
  apply generate_key_pair_returns in Hfirst as [-> Hex].
  by rewrite (Hpresent pass1 w1 Hex).
Qed.

(** C6: without the private key file the call raises
    [ResourceNotFoundError]; with it, the call returns [True] exactly when
    the SSH process exits with code zero, [False] when it exits with
    another code or is still running after the timeout of 10, and raises
    [SSHManagerError] only when starting or running the process failed
    with some other exception. *)
Theorem verify_connectivity_outcomes (self : SSHManager)
    (host user key_name : string) (port : Z) (w : world) :
  let private_key_path := path_join (key_dir self) key_name in
  let r := (verify_connectivity spawn self host user key_name port w).1 in
  let o := (spawn (ssh_cmd private_key_path host user port) (Some 10%Z) (w_fs w)).1 in
  (path_exists (w_fs w) private_key_path = false →
   r = Raise (new ResourceNotFoundError
                ("Private key not found: " +:+ private_key_path)))
  ∧ (path_exists (w_fs w) private_key_path = true →
     match o with
     | Exited rc _ _ => r = Ok (bool_decide (rc = 0%Z))
     | TimedOut => r = Ok false
     | SpawnFailed e =>
         if isinstance e TimeoutExpired || isinstance e CalledProcessError
         then r = Ok false
         else if isinstance e Exception
         then r = Raise (new_from SSHManagerError
                           ("Unexpected error connecting to " +:+ host +:+ ": "
                            +:+ exn_msg e) e)
         else r = Raise e
     end)
  ∧ (∀ e', r = Raise e' → exn_cls e' = SSHManagerError →
       path_exists (w_fs w) private_key_path = true
       ∧ ∃ e, o = SpawnFailed e
              ∧ isinstance e TimeoutExpired = false
              ∧ isinstance e CalledProcessError = false).
Proof.
  intros private_key_path r o.
  assert (path_exists (w_fs w) private_key_path = true →
     match o with
     | Exited rc _ _ => r = Ok (bool_decide (rc = 0%Z))
     | TimedOut => r = Ok false
     | SpawnFailed e =>
         if isinstance e TimeoutExpired || isinstance e CalledProcessError
         then r = Ok false
         else if isinstance e Exception
         then r = Raise (new_from SSHManagerError
                           ("Unexpected error connecting to " +:+ host +:+ ": "
                            +:+ exn_msg e) e)
         else r = Raise e
     end) as Hpresent.
  { intros Hex. subst r o. unfold verify_connectivity.
    fold private_key_path. rewrite Hex. simpl.
    unfold try_M, bind_M, subprocess_run.
    destruct (spawn _ _ _) as [o fs']. simpl.
    destruct o as [rc out err| |e]; simpl.
    - destruct (Z.eqb_spec rc 0) as [->|Hrc]; simpl; [done|].
      by rewrite bool_decide_false.
    - done.
    - unfold catches. simpl. rewrite !orb_false_r.
      destruct (isinstance e TimeoutExpired); simpl; [done|].
      destruct (isinstance e CalledProcessError); simpl; [done|].
      by destruct (isinstance e Exception). }
  assert (path_exists (w_fs w) private_key_path = false →
     r = Raise (new ResourceNotFoundError
                  ("Private key not found: " +:+ private_key_path))) as Habsent.
  { intros Hex. subst r. unfold verify_connectivity.
    fold private_key_path. by rewrite Hex. }
  split; [done|]. split; [done|].
  intros e' Hr Hcls.
  destruct (path_exists (w_fs w) private_key_path) eqn:Hex.
  - split; [done|]. specialize (Hpresent eq_refl).
    destruct o as [rc out err| |e]; [congruence..|].
    exists e. split; [done|].
    destruct (isinstance e TimeoutExpired); simpl in Hpresent; [congruence|].
    destruct (isinstance e CalledProcessError) eqn:Hcp; simpl in Hpresent;
      [congruence|].
    done.
  - rewrite (Habsent eq_refl) in Hr. inversion Hr; subst. discriminate.
Qed.

End Manager.

Lemma generate_key_pair_idempotent_witness :
  (∀ passphrase w,
     path_exists (w_fs w) (path_join "/keys" "k1") = true →
     generate_key_pair keygen_spawn keys_manager "k1" passphrase w
     = (Ok (path_join "/keys" "k1", path_join "/keys" "k1" +:+ ".pub"), w))
  ∧ (∀ pass0 pass1 w0 w1 p,
       generate_key_pair keygen_spawn keys_manager "k1" pass0 w0 = (Ok p, w1) →
       generate_key_pair keygen_spawn keys_manager "k1" pass1 w1 = (Ok p, w1)
       ∧ w_calls (generate_key_pair keygen_spawn keys_manager "k1" pass1 w1).2
         = w_calls w1).
Proof. exact (generate_key_pair_idempotent keygen_spawn keys_manager "k1"). Defined.

Lemma verify_connectivity_outcomes_witness :
  let spawn := λ (_ : list string) (_ : option Z) (fs : gmap string node),
                 (TimedOut, fs) in
  let private_key_path := path_join "/keys" "k1" in
  let r := (verify_connectivity spawn keys_manager
              "203.0.113.7" "ubuntu" "k1" 22 k1_world).1 in
  let o := (spawn (ssh_cmd private_key_path "203.0.113.7" "ubuntu" 22)
              (Some 10%Z) (w_fs k1_world)).1 in
  (path_exists (w_fs k1_world) private_key_path = false →
   r = Raise (new ResourceNotFoundError
                ("Private key not found: " +:+ private_key_path)))
  ∧ (path_exists (w_fs k1_world) private_key_path = true →
     match o with
     | Exited rc _ _ => r = Ok (bool_decide (rc = 0%Z))
     | TimedOut => r = Ok false
     | SpawnFailed e =>
         if isinstance e TimeoutExpired || isinstance e CalledProcessError
         then r = Ok false
         else if isinstance e Exception
         then r = Raise (new_from SSHManagerError
                           ("Unexpected error connecting to " +:+ "203.0.113.7"
                            +:+ ": " +:+ exn_msg e) e)
         else r = Raise e
     end)
  ∧ (∀ e', r = Raise e' → exn_cls e' = SSHManagerError →
       path_exists (w_fs k1_world) private_key_path = true
       ∧ ∃ e, o = SpawnFailed e
              ∧ isinstance e TimeoutExpired = false
              ∧ isinstance e CalledProcessError = false).
Proof.
  exact (verify_connectivity_outcomes (λ _ _ fs, (TimedOut, fs)) keys_manager
           "203.0.113.7" "ubuntu" "k1" 22 k1_world).
Defined.

(** Scenario D: the key [k1] is on disk, nothing is generated. *)
Example generate_key_pair_existing :
  generate_key_pair keygen_spawn keys_manager "k1" None k1_world
  = (Ok ("/keys/k1", "/keys/k1.pub"), k1_world).
Proof. reflexivity. Qed.

(** From an empty directory the first call generates, the second does not. *)
Example generate_key_pair_twice :
  let first := generate_key_pair keygen_spawn keys_manager "k1" None empty_world in
  let second := generate_key_pair keygen_spawn keys_manager "k1" (Some "pw") first.2 in
  first.1 = Ok ("/keys/k1", "/keys/k1.pub")
  ∧ length (w_calls first.2) = 1
  ∧ second = (first.1, first.2).
Proof. by vm_compute. Qed.

(** Scenario C: the SSH client is still running when the timeout expires. *)
Example verify_connectivity_timeout :
  verify_connectivity (λ _ _ fs, (TimedOut, fs)) keys_manager
    "203.0.113.7" "ubuntu" "k1" 22 k1_world
  = (Ok false,
     {| w_fs := w_fs k1_world;
        w_calls := [ssh_cmd "/keys/k1" "203.0.113.7" "ubuntu" 22] |}).
Proof. reflexivity. Qed.

Example verify_connectivity_no_key :
  (verify_connectivity (λ _ _ fs, (Exited 0 "" "", fs)) keys_manager
     "203.0.113.7" "ubuntu" "k1" 22 empty_world).1
  = Raise (new ResourceNotFoundError "Private key not found: /keys/k1").
Proof. reflexivity. Qed.

(** *** Paths and what obstructs them *)














(** The private key of [k2] may come and go on the sample file system. *)
Example get_public_key_private_key_added :
  get_public_key keys_manager "k2"
    (<["/keys/k2" := File 384 "PRIVATE KEY"]> pub_only_fs)
  = get_public_key keys_manager "k2" pub_only_fs.
Proof. reflexivity. Qed.

(** The public key is read although the private key file is missing. *)
Example get_public_key_without_private_key :
  pub_only_fs !! path_join "/keys" "k2" = None
  ∧ get_public_key keys_manager "k2" pub_only_fs = Ok "ssh-ed25519 AAAAC3Nz k2".
Proof. split; reflexivity. Qed.

(** *** More on key generation *)

Lemma chmod_present (path : string) (m : N) (w : world) (n : node) :
  w_fs w !! path = Some n →
  chmod path m w
  = (Ok (), {| w_fs := <[path := with_mode n m]> (w_fs w); w_calls := w_calls w |}).
Proof. unfold chmod. intros ->. by destruct n. Qed.

Lemma chmod_absent (path : string) (m : N) (w : world) :
  w_fs w !! path = None →
  chmod path m w
  = (Raise (new FileNotFoundError ("No such file or directory: " +:+ path)), w).
Proof. unfold chmod. by intros ->. Qed.

Lemma path_join_absolute (d n : string) :
  startswith_sep n = true → path_join d n = n.
Proof. unfold path_join. by intros ->. Qed.

Lemma startswith_sep_append (n s : string) :
  startswith_sep n = true → startswith_sep (n +:+ s) = true.
Proof. by destruct n. Qed.

Section Generation.

Variable spawn :
  list string -> option Z -> gmap string node -> proc_outcome * gmap string node.

(** [generate_key_pair] by cases when the private key file is absent. *)
Lemma generate_key_pair_cases (self : SSHManager) (key_name : string)
    (passphrase : option string) (w : world) (priv pub : string)
    (cmd : list string) :
  priv = path_join (key_dir self) key_name →
  pub = priv +:+ ".pub" →
  cmd = keygen_cmd priv passphrase →
  path_exists (w_fs w) priv = false →
  generate_key_pair spawn self key_name passphrase w
  = let w1 := {| w_fs := (spawn cmd None (w_fs w)).2;
                 w_calls := w_calls w ++ [cmd] |} in
    let permissions (e : exn) :=
      new_from SSHManagerError ("Failed to set key permissions: " +:+ exn_msg e) e in
    match (spawn cmd None (w_fs w)).1 with
    | Exited rc out err =>
        if (rc =? 0)%Z
        then
          match w_fs w1 !! priv, w_fs w1 !! pub with
          | Some n1, Some n2 =>
              (Ok (priv, pub),
               {| w_fs := <[pub := with_mode n2 420]>
                            (<[priv := with_mode n1 384]> (w_fs w1));
                  w_calls := w_calls w1 |})
          | Some n1, None =>
              (Raise (permissions
                        (new FileNotFoundError
                           ("No such file or directory: " +:+ pub))),
               {| w_fs := <[priv := with_mode n1 384]> (w_fs w1);
                  w_calls := w_calls w1 |})
          | None, _ =>
              (Raise (permissions
                        (new FileNotFoundError
                           ("No such file or directory: " +:+ priv))), w1)
          end
        else
          (Raise (new_from SSHManagerError
                    ("Failed to generate SSH key pair: " +:+ err)
                    (mk_exn CalledProcessError
                       ("Command returned non-zero exit status " +:+ str_of_int rc)
                       err None)), w1)
    | TimedOut => (Raise (new TimeoutExpired "Command timed out"), w1)
    | SpawnFailed e =>
        (if isinstance e CalledProcessError
         then Raise (new_from SSHManagerError
                       ("Failed to generate SSH key pair: " +:+ exn_detail e) e)
         else if isinstance e OSError then Raise (permissions e)
         else Raise e, w1)
    end.
Proof.
  intros Hpriv Hpub Hcmd Hex. unfold generate_key_pair.
  rewrite <- Hpriv, <- Hpub, <- Hcmd, Hex.
  unfold try_M, bind_M, subprocess_run.
  destruct (spawn cmd None (w_fs w)) as [o fs1].
  destruct o as [rc out err| |e]; simpl.
  - destruct (rc =? 0)%Z; simpl; [|done].
    destruct (fs1 !! priv) as [n1|] eqn:H1.
    + erewrite chmod_present by done. simpl.
      assert (priv ≠ pub) as Hne by (rewrite Hpub; apply PyProofs.append_pub_neq).
      destruct (fs1 !! pub) as [n2|] eqn:H2.
      * erewrite chmod_present; [done|]. simpl. by rewrite lookup_insert_ne.
      * rewrite chmod_absent; [done|]. simpl. by rewrite lookup_insert_ne.
    + by rewrite chmod_absent.
  - done.
  - rewrite !orb_false_r.
    destruct (isinstance e CalledProcessError); [done|].
    by destruct (isinstance e OSError).
Qed.

(** A call that generated the pair: what the key generator did and what
    the two [chmod] calls made of it. *)
Lemma generate_key_pair_fresh (self : SSHManager) (key_name : string)
    (passphrase : option string) (w0 w1 : world) (p : string * string) :
  let priv := path_join (key_dir self) key_name in
  let pub := priv +:+ ".pub" in
  let cmd := keygen_cmd priv passphrase in
  path_exists (w_fs w0) priv = false →
  generate_key_pair spawn self key_name passphrase w0 = (Ok p, w1) →
  ∃ out err n1 n2,
    (spawn cmd None (w_fs w0)).1 = Exited 0 out err
    ∧ (spawn cmd None (w_fs w0)).2 !! priv = Some n1
    ∧ (spawn cmd None (w_fs w0)).2 !! pub = Some n2
    ∧ p = (priv, pub)
    ∧ w1 = {| w_fs := <[pub := with_mode n2 420]>
                        (<[priv := with_mode n1 384]> (spawn cmd None (w_fs w0)).2);
              w_calls := w_calls w0 ++ [cmd] |}.
Proof.
  intros priv pub cmd Hex.
  rewrite (generate_key_pair_cases self key_name passphrase w0 priv pub cmd)
    by done.
  simpl. destruct (spawn cmd None (w_fs w0)) as [o fs1]. simpl.
  destruct o as [rc out err| |e].
  - destruct (Z.eqb_spec rc 0) as [->|Hrc]; [|discriminate].
    destruct (fs1 !! priv) as [n1|]; [|discriminate].
    destruct (fs1 !! pub) as [n2|]; [|discriminate].
    intros [= <- <-]. by exists out, err, n1, n2.
  - discriminate.
  - destruct (isinstance e CalledProcessError); [discriminate|].
    destruct (isinstance e OSError); discriminate.
Qed.

(** X13: a call of [generate_key_pair] that finds no private key file and
    returns has run the key generator once, with exit code zero, and has
    then set the mode of the private key file to [0o600] and that of the
    public key file to [0o644], keeping their contents; every other path
    is as the key generator left it. *)
Theorem generate_key_pair_sets_modes (self : SSHManager) (key_name : string)
    (passphrase : option string) (w0 w1 : world) (p : string * string) :
  let priv := path_join (key_dir self) key_name in
  let pub := priv +:+ ".pub" in
  let cmd := keygen_cmd priv passphrase in
  path_exists (w_fs w0) priv = false →
  generate_key_pair spawn self key_name passphrase w0 = (Ok p, w1) →
  w_calls w1 = w_calls w0 ++ [cmd]
  ∧ (∃ out err, (spawn cmd None (w_fs w0)).1 = Exited 0 out err)
  ∧ (∃ n, (spawn cmd None (w_fs w0)).2 !! priv = Some n
          ∧ w_fs w1 !! priv = Some (with_mode n 384)
          ∧ node_mode (with_mode n 384) = 384%N)
  ∧ (∃ n, (spawn cmd None (w_fs w0)).2 !! pub = Some n
          ∧ w_fs w1 !! pub = Some (with_mode n 420)
          ∧ node_mode (with_mode n 420) = 420%N)
  ∧ (∀ q, q ≠ priv → q ≠ pub →
          w_fs w1 !! q = (spawn cmd None (w_fs w0)).2 !! q).
Proof.
  intros priv pub cmd Hex Hgen.
  destruct (generate_key_pair_fresh _ _ _ _ _ _ Hex Hgen)
    as (out & err & n1 & n2 & Hsp & H1 & H2 & -> & ->).
  fold priv pub cmd in Hsp, H1, H2 |- *. simpl.
  assert (priv ≠ pub) as Hne by apply PyProofs.append_pub_neq.
  split; [done|]. split; [eauto|]. split; [|split].
  - exists n1. split; [done|].
    rewrite lookup_insert_ne, lookup_insert_eq by done. by destruct n1.
  - exists n2. split; [done|]. rewrite lookup_insert_eq. by destruct n2.
  - intros q Hq1 Hq2. by rewrite !lookup_insert_ne.
Qed.

(** X14: when the key generator exits with a non-zero code, the call
    raises [SSHManagerError] with the message "Failed to generate SSH key
    pair: " followed by what the generator wrote to its standard error,
    caused by the [CalledProcessError]; no permission is changed. *)
Theorem generate_key_pair_keygen_failure (self : SSHManager)
    (key_name : string) (passphrase : option string) (w : world)
    (rc : Z) (out err : string) (fs' : gmap string node) :
  let priv := path_join (key_dir self) key_name in
  let cmd := keygen_cmd priv passphrase in
  path_exists (w_fs w) priv = false →
  spawn cmd None (w_fs w) = (Exited rc out err, fs') →
  rc ≠ 0%Z →
  ∃ e,
    generate_key_pair spawn self key_name passphrase w
    = (Raise (new_from SSHManagerError
                ("Failed to generate SSH key pair: " +:+ err) e),
       {| w_fs := fs'; w_calls := w_calls w ++ [cmd] |})
    ∧ exn_cls e = CalledProcessError
    ∧ exn_detail e = err.
Proof.
  intros priv cmd Hex Hsp Hrc.
  rewrite (generate_key_pair_cases self key_name passphrase w priv
             (priv +:+ ".pub") cmd) by done.
  rewrite Hsp. simpl.
  destruct (Z.eqb_spec rc 0) as [->|_]; [done|].
  eexists. split; [reflexivity|]. done.
Qed.



(** X17: after a call of [generate_key_pair] that generated the pair,
    [get_public_key] for the same name does not raise
    [ResourceNotFoundError], and returns the stripped text of the public
    key file when the generator left a regular file there. *)
Theorem generate_then_get_public_key (self : SSHManager) (key_name : string)
    (passphrase : option string) (w0 w1 : world) (p : string * string) :
  path_exists (w_fs w0) (path_join (key_dir self) key_name) = false →
  generate_key_pair spawn self key_name passphrase w0 = (Ok p, w1) →
  (∀ e, get_public_key self key_name (w_fs w1) = Raise e →
        exn_cls e ≠ ResourceNotFoundError)
  ∧ (∀ m data, w_fs w1 !! p.2 = Some (File m data) →
               get_public_key self key_name (w_fs w1) = Ok (strip data)).
Proof.
  intros Hex Hgen.
  destruct (generate_key_pair_fresh _ _ _ _ _ _ Hex Hgen)
    as (out & err & n1 & n2 & Hsp & H1 & H2 & -> & ->).
  unfold get_public_key, read_text. rewrite path_join_pub. simpl.
  rewrite !lookup_insert_eq. split.
  - intros e. destruct n2 as [m data|m]; simpl; [discriminate|].
    by intros [= <-].
  - intros m data. destruct n2 as [m' data'|m']; simpl; [|discriminate].
    by intros [= <- <-].
Qed.

(** X18: [verify_connectivity] starts no process when the private key file
    is missing, and leaves the world untouched; otherwise it hands exactly
    one command to [subprocess.run], the SSH command for that key, host,
    user and port, and changes no file itself, whatever the outcome. *)
Theorem verify_connectivity_effects (self : SSHManager)
    (host user key_name : string) (port : Z) (w : world) :
  let priv := path_join (key_dir self) key_name in
  let w' := (verify_connectivity spawn self host user key_name port w).2 in
  (path_exists (w_fs w) priv = false → w' = w)
  ∧ (path_exists (w_fs w) priv = true →
     w_calls w' = w_calls w ++ [ssh_cmd priv host user port]
     ∧ w_fs w' = (spawn (ssh_cmd priv host user port) (Some 10%Z) (w_fs w)).2).
Proof.
  intros priv w'. subst w'. unfold verify_connectivity. fold priv. split.
  - by intros ->.
  - intros ->. simpl. unfold try_M, bind_M, subprocess_run.
    destruct (spawn _ _ _) as [o fs']. simpl.
    destruct o as [rc out err| |e]; simpl.
    + by destruct (rc =? 0)%Z.
    + done.
    + rewrite !orb_false_r.
      destruct (isinstance e TimeoutExpired); [done|].
      destruct (isinstance e CalledProcessError); [done|].
      by destruct (isinstance e Exception).
Qed.

(** X19: a key name that starts with [/] makes the key directory
    irrelevant: the key pair is looked for and generated at that absolute
    path, whatever manager is used. *)
Theorem absolute_key_name_ignores_key_dir (self1 self2 : SSHManager)
    (key_name : string) :
  startswith_sep key_name = true →
  (∀ passphrase w,
     generate_key_pair spawn self1 key_name passphrase w
     = generate_key_pair spawn self2 key_name passphrase w)
  ∧ (∀ fs, get_public_key self1 key_name fs = get_public_key self2 key_name fs)
  ∧ (∀ host user port w,
       verify_connectivity spawn self1 host user key_name port w
       = verify_connectivity spawn self2 host user key_name port w)
  ∧ (∀ passphrase w p w',
       generate_key_pair spawn self1 key_name passphrase w = (Ok p, w') →
       p = (key_name, key_name +:+ ".pub")).
Proof.
  intros Habs. split; [|split; [|split]].
  - intros passphrase w. unfold generate_key_pair.
    by rewrite !(path_join_absolute _ key_name Habs).
  - intros fs. unfold get_public_key.
    by rewrite !(path_join_absolute _ _ (startswith_sep_append _ ".pub" Habs)).
  - intros host user port w. unfold verify_connectivity.
    by rewrite !(path_join_absolute _ key_name Habs).
  - intros passphrase w p w' Hgen.
    apply generate_key_pair_returns in Hgen as [-> _].
    by rewrite (path_join_absolute _ key_name Habs).
Qed.

End Generation.

(** *** Reading the public key *)

(** X20: the text that [get_public_key] returns is stripped: it neither
    starts nor ends with a blank, and stripping it again changes
    nothing. *)
Theorem get_public_key_is_stripped (self : SSHManager) (key_name : string)
    (fs : gmap string node) (s : string) :
  get_public_key self key_name fs = Ok s →
  strip s = s
  ∧ (∀ a t, s = String a t → isspace a = false)
  ∧ (∀ t a, s = t +:+ String a "" → isspace a = false).
Proof.
  unfold get_public_key.
  destruct (read_text fs _) as [data|e]; simpl.
  - intros [= <-]. apply PyProofs.strip_is_stripped.
  - rewrite !orb_false_r.
    destruct (isinstance e FileNotFoundError); [discriminate|].
    destruct (isinstance e OSError); discriminate.
Qed.


(** *** The manager on its host *)

Section Host.

Variable expanduser : string -> string.
Variable makedirs :
  string -> N -> gmap string node -> option exn * gmap string node.
Variable umask : N.
Variable spawn :
  list string -> option Z -> gmap string node -> proc_outcome * gmap string node.

Lemma ssh_init_cases (dir : string) (w : world) :
  init expanduser makedirs dir w
  = let w1 := {| w_fs := (makedirs (expanduser dir) 448 (w_fs w)).2;
                 w_calls := w_calls w |} in
    match (makedirs (expanduser dir) 448 (w_fs w)).1 with
    | None => (Ok {| key_dir := expanduser dir |}, w1)
    | Some x =>
        (if isinstance x OSError
         then Raise (new_from SSHManagerError
                       ("Failed to create SSH key directory: " +:+ exn_msg x) x)
         else Raise x, w1)
    end.
Proof.
  unfold init, try_M, bind_M, os_makedirs.
  destruct (makedirs _ _ _) as [[x|] fs1]; simpl; [|done].
  rewrite orb_false_r. by destruct (isinstance x OSError).
Qed.

(** [add_to_known_hosts] by cases. *)
Lemma add_to_known_hosts_cases (self : SSHManager) (host : string) (port : Z)
    (w : world) (kh : string) (cmd : list string) :
  kh = path_join (key_dir self) "known_hosts" →
  cmd = keyscan_cmd host port →
  add_to_known_hosts makedirs umask spawn self host port w
  = let fs1 := (makedirs (dirname kh) 448 (w_fs w)).2 in
    let fs2 := (spawn cmd None fs1).2 in
    let w2 := {| w_fs := fs2; w_calls := w_calls w ++ [cmd] |} in
    let host_key (e : exn) :=
      new_from SSHManagerError ("Failed to get host key: " +:+ exn_detail e) e in
    let write (e : exn) :=
      new_from SSHManagerError ("Failed to write to known_hosts: " +:+ exn_msg e) e in
    match (makedirs (dirname kh) 448 (w_fs w)).1 with
    | Some x =>
        (if isinstance x CalledProcessError then Raise (host_key x)
         else if isinstance x OSError then Raise (write x)
         else Raise x,
         {| w_fs := fs1; w_calls := w_calls w |})
    | None =>
        match (spawn cmd None fs1).1 with
        | Exited rc out err =>
            if (rc =? 0)%Z
            then
              match fs2 !! kh with
              | None =>
                  (Ok (), {| w_fs := <[kh := File (N.ldiff 438 umask) out]> fs2;
                             w_calls := w_calls w ++ [cmd] |})
              | Some (File m data) =>
                  if owner_writable m
                  then (Ok (), {| w_fs := <[kh := File m (data +:+ out)]> fs2;
                                  w_calls := w_calls w ++ [cmd] |})
                  else (Raise (write (new PermissionError
                                        ("Permission denied: " +:+ kh))), w2)
              | Some (Dir _) =>
                  (Raise (write (new IsADirectoryError
                                   ("Is a directory: " +:+ kh))), w2)
              end
            else
              (Raise (host_key
                        (mk_exn CalledProcessError
                           ("Command returned non-zero exit status "
                            +:+ str_of_int rc) err None)), w2)
        | TimedOut => (Raise (new TimeoutExpired "Command timed out"), w2)
        | SpawnFailed x =>
            (if isinstance x CalledProcessError then Raise (host_key x)
             else if isinstance x OSError then Raise (write x)
             else Raise x, w2)
        end
    end.
Proof.
  intros Hkh Hcmd. unfold add_to_known_hosts. rewrite <- Hkh, <- Hcmd.
  unfold try_M, bind_M, os_makedirs.
  destruct (makedirs _ _ _) as [[x|] fs1]; simpl.
  { rewrite !orb_false_r.
    destruct (isinstance x CalledProcessError); [done|].
    by destruct (isinstance x OSError). }
  unfold subprocess_run. simpl.
  destruct (spawn cmd None fs1) as [o fs2]. simpl.
  destruct o as [rc out err| |x]; simpl.
  - destruct (rc =? 0)%Z; simpl; [|done].
    unfold append_text. simpl.
    destruct (fs2 !! kh) as [[m data|m]|]; simpl; [|done..].
    by destruct (owner_writable m).
  - done.
  - rewrite !orb_false_r.
    destruct (isinstance x CalledProcessError); [done|].
    by destruct (isinstance x OSError).
Qed.

(** The call that succeeds. *)
Lemma add_to_known_hosts_ok (self : SSHManager) (host : string)
    (port : Z) (w : world) (fs1 fs2 : gmap string node) (out err : string) :
  let kh := path_join (key_dir self) "known_hosts" in
  let cmd := keyscan_cmd host port in
  makedirs (dirname kh) 448 (w_fs w) = (None, fs1) →
  spawn cmd None fs1 = (Exited 0 out err, fs2) →
  (∀ m, fs2 !! kh ≠ Some (Dir m)) →
  (∀ m data, fs2 !! kh = Some (File m data) → owner_writable m = true) →
  add_to_known_hosts makedirs umask spawn self host port w
  = (Ok (),
     {| w_fs := <[kh := match fs2 !! kh with
                        | Some (File m data) => File m (data +:+ out)
                        | _ => File (N.ldiff 438 umask) out
                        end]> fs2;
        w_calls := w_calls w ++ [cmd] |}).
Proof.
  intros kh cmd Hmk Hsp Hdir Hwr.
  rewrite (add_to_known_hosts_cases self host port w kh cmd) by done.
  rewrite Hmk. simpl. rewrite Hsp. simpl.
  destruct (fs2 !! kh) as [[m data|m]|] eqn:Hkh; [|by destruct (Hdir m)|done].
  by rewrite (Hwr m data eq_refl).
Qed.

(** X22: when the directory is made, the key scanner exits with code zero
    and the [known_hosts] file is not a directory and may be written, the
    call returns, having run the scanner once for the host and port; the
    file then holds what it held before followed by the scanner's
    output, or the output alone if the file was missing, and no other
    path is touched after the scan. *)
Theorem add_to_known_hosts_appends (self : SSHManager) (host : string)
    (port : Z) (w : world) (fs1 fs2 : gmap string node) (out err : string) :
  let kh := path_join (key_dir self) "known_hosts" in
  let cmd := keyscan_cmd host port in
  makedirs (dirname kh) 448 (w_fs w) = (None, fs1) →
  spawn cmd None fs1 = (Exited 0 out err, fs2) →
  (∀ m, fs2 !! kh ≠ Some (Dir m)) →
  (∀ m data, fs2 !! kh = Some (File m data) → owner_writable m = true) →
  add_to_known_hosts makedirs umask spawn self host port w
  = (Ok (),
     {| w_fs := <[kh := match fs2 !! kh with
                        | Some (File m data) => File m (data +:+ out)
                        | _ => File (N.ldiff 438 umask) out
                        end]> fs2;
        w_calls := w_calls w ++ [cmd] |}).
Proof. apply add_to_known_hosts_ok. Qed.

(** X23: [add_to_known_hosts] does not look at what the file holds: on a
    host where the directory exists and the scanner answers the same
    output each time, two calls for the same host leave the output twice
    at the end of the file. *)
Theorem add_to_known_hosts_twice (self : SSHManager) (host : string)
    (port : Z) (w : world) (m : N) (data out err : string) :
  let kh := path_join (key_dir self) "known_hosts" in
  let cmd := keyscan_cmd host port in
  (∀ fs, makedirs (dirname kh) 448 fs = (None, fs)) →
  (∀ fs, spawn cmd None fs = (Exited 0 out err, fs)) →
  w_fs w !! kh = Some (File m data) →
  owner_writable m = true →
  let first := add_to_known_hosts makedirs umask spawn self host port w in
  let second := add_to_known_hosts makedirs umask spawn self host port first.2 in
  first.1 = Ok ()
  ∧ second.1 = Ok ()
  ∧ w_fs second.2 !! kh = Some (File m ((data +:+ out) +:+ out))
  ∧ w_calls second.2 = w_calls w ++ [cmd; cmd].
Proof.
  intros kh cmd Hmk Hsp Hkh Hwr first second.
  assert (first = (Ok (), {| w_fs := <[kh := File m (data +:+ out)]> (w_fs w);
                             w_calls := w_calls w ++ [cmd] |})) as Hfirst.
  { subst first.
    rewrite (add_to_known_hosts_ok self host port w (w_fs w) (w_fs w) out err).
    - fold kh. by rewrite Hkh.
    - apply Hmk.
    - apply Hsp.
    - intros m'. fold kh. by rewrite Hkh.
    - intros m' data'. fold kh. rewrite Hkh. by intros [= <- <-]. }
  subst second. rewrite Hfirst. cbn [fst snd].
  rewrite (add_to_known_hosts_ok self host port _
             (<[kh := File m (data +:+ out)]> (w_fs w))
             (<[kh := File m (data +:+ out)]> (w_fs w)) out err).
  - fold kh cmd. cbn [fst snd w_fs w_calls].
    rewrite !lookup_insert_eq, <- app_assoc. done.
  - apply Hmk.
  - apply Hsp.
  - intros m'. fold kh. by rewrite lookup_insert_eq.
  - intros m' data'. fold kh. rewrite lookup_insert_eq. by intros [= <- <-].
Qed.

(** X24: when the key scanner exits with a non-zero code, the call raises
    [SSHManagerError] with the message "Failed to get host key: " followed
    by the scanner's standard error, and the [known_hosts] file is not
    written. *)
Theorem add_to_known_hosts_keyscan_failure (self : SSHManager) (host : string)
    (port : Z) (w : world) (fs1 fs2 : gmap string node) (rc : Z)
    (out err : string) :
  let kh := path_join (key_dir self) "known_hosts" in
  let cmd := keyscan_cmd host port in
  makedirs (dirname kh) 448 (w_fs w) = (None, fs1) →
  spawn cmd None fs1 = (Exited rc out err, fs2) →
  rc ≠ 0%Z →
  ∃ e,
    add_to_known_hosts makedirs umask spawn self host port w
    = (Raise (new_from SSHManagerError ("Failed to get host key: " +:+ err) e),
       {| w_fs := fs2; w_calls := w_calls w ++ [cmd] |})
    ∧ exn_cls e = CalledProcessError.
Proof.
  intros kh cmd Hmk Hsp Hrc.
  rewrite (add_to_known_hosts_cases self host port w kh cmd) by done.
  rewrite Hmk. simpl. rewrite Hsp. simpl.
  destruct (Z.eqb_spec rc 0) as [->|_]; [done|].
  eexists. split; reflexivity.
Qed.

(** X25: every [OSError] is reported as a failure to write [known_hosts]:
    the one of a directory that cannot be made, in which case no process
    is started, and the one of a key scanner that cannot be started. *)
Theorem add_to_known_hosts_oserror_report (self : SSHManager) (host : string)
    (port : Z) (w : world) :
  let kh := path_join (key_dir self) "known_hosts" in
  let cmd := keyscan_cmd host port in
  (∀ x fs1,
     makedirs (dirname kh) 448 (w_fs w) = (Some x, fs1) →
     isinstance x OSError = true →
     add_to_known_hosts makedirs umask spawn self host port w
     = (Raise (new_from SSHManagerError
                 ("Failed to write to known_hosts: " +:+ exn_msg x) x),
        {| w_fs := fs1; w_calls := w_calls w |}))
  ∧ (∀ fs1 x fs2,
       makedirs (dirname kh) 448 (w_fs w) = (None, fs1) →
       spawn cmd None fs1 = (SpawnFailed x, fs2) →
       isinstance x OSError = true →
       add_to_known_hosts makedirs umask spawn self host port w
       = (Raise (new_from SSHManagerError
                   ("Failed to write to known_hosts: " +:+ exn_msg x) x),
          {| w_fs := fs2; w_calls := w_calls w ++ [cmd] |})).
Proof.
  intros kh cmd. split.
  - intros x fs1 Hmk Hx.
    rewrite (add_to_known_hosts_cases self host port w kh cmd) by done.
    rewrite Hmk. simpl.
    by rewrite (PyProofs.oserror_not_called_process_error x Hx), Hx.
  - intros fs1 x fs2 Hmk Hsp Hx.
    rewrite (add_to_known_hosts_cases self host port w kh cmd) by done.
    rewrite Hmk. simpl. rewrite Hsp. simpl.
    by rewrite (PyProofs.oserror_not_called_process_error x Hx), Hx.
Qed.

(** The [try] of [setup_ssh_key] around any body. *)
Lemma try_setup (A : Type) (body : M A) (w : world) :
  let r :=
    (try_M body
       [ ([Exception], λ e,
            raise_M (new_from SSHManagerError
                       ("Failed to set up SSH key: " +:+ exn_msg e) e)) ]
       w).1 in
  (∀ a, r = Ok a → (body w).1 = Ok a)
  ∧ (∀ e', r = Raise e' → isinstance e' Exception = true →
       ∃ e0, (body w).1 = Raise e0
             ∧ e' = new_from SSHManagerError
                      ("Failed to set up SSH key: " +:+ exn_msg e0) e0).
Proof.
  unfold try_M. destruct (body w) as [[a|e0] w']; simpl.
  - split; [done|discriminate].
  - rewrite orb_false_r. destruct (isinstance e0 Exception) eqn:H0; simpl.
    + split; [discriminate|]. intros e' [= <-] _. eauto.
    + split; [discriminate|]. intros e' [= <-]. congruence.
Qed.

(** X26: [setup_ssh_key] always works in the expansion of [~/.ssh]: the
    paths it returns are those of the key name in that directory.  Every
    [Exception] that leaves it is an [SSHManagerError] whose message is
    "Failed to set up SSH key: " followed by the message of its cause. *)
Theorem setup_ssh_key_outcomes (key_name : string)
    (passphrase : option string) (w : world) :
  let r := (setup_ssh_key expanduser makedirs spawn key_name passphrase w).1 in
  let priv := path_join (expanduser "~/.ssh") key_name in
  (∀ p, r = Ok p → p = (priv, priv +:+ ".pub"))
  ∧ (∀ e', r = Raise e' → isinstance e' Exception = true →
       exn_cls e' = SSHManagerError
       ∧ ∃ e, exn_cause e' = Some e
              ∧ exn_msg e' = "Failed to set up SSH key: " +:+ exn_msg e).
Proof.
  intros r priv. subst r. unfold setup_ssh_key.
  match goal with
  | |- context [try_M ?b _ w] => destruct (try_setup _ b w) as [Hok Hraise]
  end.
  split.
  - intros p Hp. apply Hok in Hp. unfold bind_M in Hp.
    rewrite ssh_init_cases in Hp. cbn zeta in Hp.
    destruct (makedirs _ _ _) as [[x|] fs1]; cbn [fst snd] in Hp.
    + by destruct (isinstance x OSError).
    + destruct (generate_key_pair spawn _ key_name passphrase _)
        as [[p0|e0] w2] eqn:Hgen; [|done].
      injection Hp as <-.
      by apply generate_key_pair_returns in Hgen as [-> _].
  - intros e' He' Hexc.
    destruct (Hraise e' He' Hexc) as (e0 & _ & ->). simpl. eauto.
Qed.

(** X27: when the key generator exits with a non-zero code, the
    [SSHManagerError] of [generate_key_pair] is wrapped once more: what
    leaves [setup_ssh_key] is an [SSHManagerError] with the message
    "Failed to set up SSH key: Failed to generate SSH key pair: ..."
    whose cause is the first [SSHManagerError], itself caused by the
    [CalledProcessError]. *)
Theorem setup_ssh_key_keygen_failure (key_name : string)
    (passphrase : option string) (w : world) (fs1 fs2 : gmap string node)
    (rc : Z) (out err : string) :
  let priv := path_join (expanduser "~/.ssh") key_name in
  makedirs (expanduser "~/.ssh") 448 (w_fs w) = (None, fs1) →
  path_exists fs1 priv = false →
  spawn (keygen_cmd priv passphrase) None fs1 = (Exited rc out err, fs2) →
  rc ≠ 0%Z →
  ∃ e,
    (setup_ssh_key expanduser makedirs spawn key_name passphrase w).1
    = Raise (new_from SSHManagerError
               ("Failed to set up SSH key: "
                +:+ ("Failed to generate SSH key pair: " +:+ err))
               (new_from SSHManagerError
                  ("Failed to generate SSH key pair: " +:+ err) e))
    ∧ exn_cls e = CalledProcessError.
Proof.
  intros priv Hmk Hex Hsp Hrc.
  unfold setup_ssh_key, try_M, bind_M. rewrite ssh_init_cases, Hmk. simpl.
  rewrite (generate_key_pair_cases spawn _ key_name passphrase _ priv
             (priv +:+ ".pub") (keygen_cmd priv passphrase)) by done.
  simpl. rewrite Hsp. simpl.
  destruct (Z.eqb_spec rc 0) as [->|_]; [done|].
  eexists. split; reflexivity.
Qed.

End Host.

(** *** The properties above on the sample data *)

Lemma generate_key_pair_sets_modes_witness :
  let w1 := (generate_key_pair keygen_spawn keys_manager "k1" None empty_world).2 in
  w_calls w1 = [keygen_cmd "/keys/k1" None]
  ∧ w_fs w1 !! "/keys/k1" = Some (File 384 "PRIVATE KEY")
  ∧ w_fs w1 !! "/keys/k1.pub" = Some (File 420 "ssh-ed25519 AAAAC3Nz k1").
Proof.
  intros w1.
  destruct (generate_key_pair_sets_modes keygen_spawn keys_manager "k1" None
              empty_world w1 ("/keys/k1", "/keys/k1.pub") eq_refl eq_refl)
    as (Hcalls & _ & (n1 & Hn1 & Hpriv & _) & (n2 & Hn2 & Hpub & _) & _).
  split; [exact Hcalls|]. split.
  - etrans; [exact Hpriv|]. vm_compute in Hn1. injection Hn1 as <-. reflexivity.
  - etrans; [exact Hpub|]. vm_compute in Hn2. injection Hn2 as <-. reflexivity.
Defined.

Lemma generate_key_pair_keygen_failure_witness :
  ∃ e,
    generate_key_pair failing_spawn keys_manager "k1" None empty_world
    = (Raise (new_from SSHManagerError
                ("Failed to generate SSH key pair: " +:+ "ssh: failure") e),
       {| w_fs := ∅; w_calls := [] ++ [keygen_cmd "/keys/k1" None] |})
    ∧ exn_cls e = CalledProcessError
    ∧ exn_detail e = "ssh: failure".
Proof.
  apply (generate_key_pair_keygen_failure failing_spawn keys_manager "k1" None
           empty_world 1 "" "ssh: failure" ∅);
    [reflexivity|reflexivity|discriminate].
Defined.



Lemma generate_then_get_public_key_witness :
  get_public_key keys_manager "k1"
    (w_fs (generate_key_pair keygen_spawn keys_manager "k1" None empty_world).2)
  = Ok "ssh-ed25519 AAAAC3Nz k1".
Proof.
  apply (proj2 (generate_then_get_public_key keygen_spawn keys_manager "k1" None
                  empty_world _ ("/keys/k1", "/keys/k1.pub") eq_refl eq_refl)
           420%N "ssh-ed25519 AAAAC3Nz k1").
  reflexivity.
Defined.

Lemma get_public_key_is_stripped_witness :
  strip "ssh-ed25519 AAAAC3Nz k2" = "ssh-ed25519 AAAAC3Nz k2"
  ∧ (∀ a t, "ssh-ed25519 AAAAC3Nz k2" = String a t → isspace a = false)
  ∧ (∀ t a, "ssh-ed25519 AAAAC3Nz k2" = t +:+ String a "" → isspace a = false).
Proof.
  apply (get_public_key_is_stripped keys_manager "k2" pub_only_fs).
  reflexivity.
Defined.


Lemma add_to_known_hosts_appends_witness :
  add_to_known_hosts makedirs_present 18 keyscan_spawn keys_manager
    "203.0.113.7" 22 known_hosts_world
  = (Ok (),
     {| w_fs := {[ "/keys/known_hosts" :=
                     File 420 ("old-host ssh-ed25519 AAAAC3Nz;"
                               +:+ "203.0.113.7 ssh-ed25519 AAAAC3Nz;") ]};
        w_calls := [keyscan_cmd "203.0.113.7" 22] |}).
Proof.
  rewrite (add_to_known_hosts_appends makedirs_present 18 keyscan_spawn
             keys_manager "203.0.113.7" 22 known_hosts_world
             (w_fs known_hosts_world) (w_fs known_hosts_world)
             "203.0.113.7 ssh-ed25519 AAAAC3Nz;" "").
  - by vm_compute.
  - reflexivity.
  - reflexivity.
  - intros m H. vm_compute in H. discriminate.
  - intros m data H. vm_compute in H. by injection H as <- <-.
Defined.

Lemma add_to_known_hosts_twice_witness :
  let first :=
    add_to_known_hosts makedirs_present 18 keyscan_spawn keys_manager
      "203.0.113.7" 22 known_hosts_world in
  let second :=
    add_to_known_hosts makedirs_present 18 keyscan_spawn keys_manager
      "203.0.113.7" 22 first.2 in
  first.1 = Ok ()
  ∧ second.1 = Ok ()
  ∧ w_fs second.2 !! path_join (key_dir keys_manager) "known_hosts"
    = Some (File 420 (("old-host ssh-ed25519 AAAAC3Nz;"
                       +:+ "203.0.113.7 ssh-ed25519 AAAAC3Nz;")
                      +:+ "203.0.113.7 ssh-ed25519 AAAAC3Nz;"))
  ∧ w_calls second.2
    = w_calls known_hosts_world
      ++ [keyscan_cmd "203.0.113.7" 22; keyscan_cmd "203.0.113.7" 22].
Proof.
  apply (add_to_known_hosts_twice makedirs_present 18 keyscan_spawn keys_manager
           "203.0.113.7" 22 known_hosts_world 420
           "old-host ssh-ed25519 AAAAC3Nz;"
           "203.0.113.7 ssh-ed25519 AAAAC3Nz;" "");
    [intros fs; reflexivity|intros fs; reflexivity|reflexivity|reflexivity].
Defined.

Lemma add_to_known_hosts_keyscan_failure_witness :
  ∃ e,
    add_to_known_hosts makedirs_present 18 failing_spawn keys_manager
      "203.0.113.7" 22 known_hosts_world
    = (Raise (new_from SSHManagerError
                ("Failed to get host key: " +:+ "ssh: failure") e),
       {| w_fs := w_fs known_hosts_world;
          w_calls := w_calls known_hosts_world ++ [keyscan_cmd "203.0.113.7" 22] |})
    ∧ exn_cls e = CalledProcessError.
Proof.
  apply (add_to_known_hosts_keyscan_failure makedirs_present 18 failing_spawn
           keys_manager "203.0.113.7" 22 known_hosts_world
           (w_fs known_hosts_world) (w_fs known_hosts_world) 1 "" "ssh: failure");
    [reflexivity|reflexivity|discriminate].
Defined.

Lemma add_to_known_hosts_oserror_report_witness :
  add_to_known_hosts makedirs_denied 18 keyscan_spawn keys_manager
    "203.0.113.7" 22 known_hosts_world
  = (Raise (new_from SSHManagerError
              ("Failed to write to known_hosts: " +:+ exn_msg permission_denied)
              permission_denied),
     {| w_fs := w_fs known_hosts_world; w_calls := w_calls known_hosts_world |}).
Proof.
  apply (proj1 (add_to_known_hosts_oserror_report makedirs_denied 18
                  keyscan_spawn keys_manager "203.0.113.7" 22 known_hosts_world));
    reflexivity.
Defined.

Lemma setup_ssh_key_outcomes_witness :
  ("/home/u/.ssh/k1", "/home/u/.ssh/k1.pub")
  = (path_join (home_expanduser "~/.ssh") "k1",
     path_join (home_expanduser "~/.ssh") "k1" +:+ ".pub").
Proof.
  apply (proj1 (setup_ssh_key_outcomes home_expanduser makedirs_present
                  keygen_spawn "k1" None empty_world)).
  reflexivity.
Defined.

Lemma setup_ssh_key_keygen_failure_witness :
  ∃ e,
    (setup_ssh_key home_expanduser makedirs_present failing_spawn "k1" None
       empty_world).1
    = Raise (new_from SSHManagerError
               ("Failed to set up SSH key: "
                +:+ ("Failed to generate SSH key pair: " +:+ "ssh: failure"))
               (new_from SSHManagerError
                  ("Failed to generate SSH key pair: " +:+ "ssh: failure") e))
    ∧ exn_cls e = CalledProcessError.
Proof.
  apply (setup_ssh_key_keygen_failure home_expanduser makedirs_present
           failing_spawn "k1" None empty_world ∅ ∅ 1 "" "ssh: failure");
    [reflexivity|reflexivity|reflexivity|discriminate].
Defined.

Lemma verify_connectivity_effects_witness :
  (verify_connectivity failing_spawn keys_manager "203.0.113.7" "ubuntu" "k1" 22
     empty_world).2 = empty_world.
Proof.
  apply (proj1 (verify_connectivity_effects failing_spawn keys_manager
                  "203.0.113.7" "ubuntu" "k1" 22 empty_world)).
  reflexivity.
Defined.

Lemma absolute_key_name_ignores_key_dir_witness :
  get_public_key keys_manager "/tmp/k" pub_only_fs
  = get_public_key {| key_dir := "/home/u/.ssh" |} "/tmp/k" pub_only_fs.
Proof.
  apply (absolute_key_name_ignores_key_dir keygen_spawn keys_manager
           {| key_dir := "/home/u/.ssh" |} "/tmp/k").
  reflexivity.
Defined.

(** The whole setup on the sample host: the pair is generated one time
    under the expansion of [~/.ssh]. *)
Example setup_ssh_key_fresh :
  let r := setup_ssh_key home_expanduser makedirs_present keygen_spawn "k1" None
             empty_world in
  r.1 = Ok ("/home/u/.ssh/k1", "/home/u/.ssh/k1.pub")
  ∧ w_calls r.2 = [keygen_cmd "/home/u/.ssh/k1" None].
Proof. by vm_compute. Qed.

End SSHProofs.

(* ===================================================================== *)
(** ** Properties of the command dispatch *)
(* ===================================================================== *)

Module MainProofs.
Import Inventory Main Samples.

(** The three registered handlers are the only ones, and none of them acts
    on the files. *)
Lemma command_handlers_inert (k : string) (h : handler_fn)
    (args : Namespace) (e : env) (d : disk) :
  command_handlers !! k = Some h → h args e d = (Ok (), d).
Proof.
  unfold command_handlers. rewrite !lookup_insert, lookup_empty.
  repeat case_decide; by intros [= <-].
Qed.

(** C9, as stated, fails: on an environment where listing and generation
    would succeed and write the document, [main] with the [inventory]
    command returns 0 and leaves no file at the output path. *)
Lemma main_inventory_writes_no_document :
  (generate_aws_inventory (boto3_client sample_env) (open_w sample_env)
     "us-west-2" "inventories/inventory.yml" ∅)
  = (Ok (), {[ "inventories/inventory.yml" :=
                 build_inventory (scan_response sample_response) ]})
  ∧ main sample_args sample_env ∅ = (Ok 0%Z, ∅)
  ∧ (main sample_args sample_env ∅).2 !! "inventories/inventory.yml" = None.
Proof. split; [|split]; reflexivity. Qed.

(** C9 (amended): with the [inventory] subcommand, [main] dispatches to
    [handle_inventory], which like [handle_provision] and
    [handle_configure] only logs and returns: no instance is listed, no
    inventory is generated, no file is written, and [main] returns 0. *)
Theorem main_inventory_is_a_stub (args : Namespace) (e : env) (d : disk) :
  command args = Some "inventory" →
  version_lt_3_9 (version_info e) = false →
  command_handlers !! "inventory" = Some handle_inventory
  ∧ handle_inventory args e d = (Ok (), d)
  ∧ handle_inventory args e d = handle_provision args e d
  ∧ handle_inventory args e d = handle_configure args e d
  ∧ main args e d = (Ok 0%Z, d).
Proof.
  intros Hcmd Hver.
  assert (command_handlers !! "inventory" = Some handle_inventory) as Hh
    by reflexivity.
  do 4 (split; [done|]).
  unfold main, validate_environment. rewrite Hcmd, Hver.
  change (default "" (Some "inventory")) with "inventory".
  by rewrite Hh.
Qed.

Lemma main_inventory_is_a_stub_witness :
  command_handlers !! "inventory" = Some handle_inventory
  ∧ handle_inventory sample_args sample_env ∅ = (Ok (), ∅)
  ∧ handle_inventory sample_args sample_env ∅
    = handle_provision sample_args sample_env ∅
  ∧ handle_inventory sample_args sample_env ∅
    = handle_configure sample_args sample_env ∅
  ∧ main sample_args sample_env ∅ = (Ok 0%Z, ∅).
Proof.
  apply (main_inventory_is_a_stub sample_args sample_env ∅); reflexivity.
Defined.

(** X28: [main] never lets an [Exception] escape and never touches a
    file.  It returns 1 when no command was given, when the interpreter is
    older than 3.9, and for a command that is none of [inventory],
    [provision] and [configure]; it returns 0 otherwise. *)
Theorem main_exit_codes (args : Namespace) (e : env) (d : disk) :
  main args e d
  = (Ok (if negb (truthy (command args)) then 1%Z
         else if version_lt_3_9 (version_info e) then 1%Z
         else if bool_decide (default "" (command args)
                              ∈ ["inventory"; "provision"; "configure"])
         then 0%Z
         else 1%Z), d).
Proof.
  unfold main, validate_environment.
  destruct (truthy (command args)); simpl; [|done].
  destruct (version_lt_3_9 (version_info e)); simpl; [done|].
  generalize (default "" (command args)). intros k.
  destruct (command_handlers !! k) as [h|] eqn:Hh.
  - rewrite (command_handlers_inert k h args e d Hh). simpl.
    rewrite bool_decide_true; [done|].
    unfold command_handlers in Hh. rewrite !lookup_insert in Hh.
    repeat case_decide; subst; set_solver.
  - simpl. rewrite bool_decide_false; [done|].
    unfold command_handlers in Hh. rewrite !lookup_insert in Hh.
    repeat case_decide; set_solver.
Qed.

End MainProofs.

(* ===================================================================== *)
(** ** Properties of the masking of sensitive data *)
(* ===================================================================== *)

Module LoggingProofs.
Import Logging.

Lemma str_repeat_star_S (n : nat) :
  str_repeat "*" (S n) = String "*" (str_repeat "*" n).
Proof. reflexivity. Qed.

Lemma str_repeat_star_length (n : nat) : String.length (str_repeat "*" n) = n.
Proof.
  induction n as [|n IH]; [done|]. rewrite str_repeat_star_S. simpl. by rewrite IH.
Qed.

Lemma str_repeat_star_get (n i : nat) :
  (i < n)%nat → String.get i (str_repeat "*" n) = Some "*"%char.
Proof.
  revert i. induction n as [|n IH]; intros i Hi; [lia|].
  rewrite str_repeat_star_S. destruct i as [|i]; [done|]. simpl. apply IH. lia.
Qed.

Lemma str_drop_length (n : nat) (s : string) :
  String.length (str_drop n s) = String.length s - n.
Proof.
  revert s. induction n as [|n IH]; intros s; simpl; [lia|].
  destruct s as [|a s]; [done|]. simpl. apply IH.
Qed.

Lemma str_drop_get (n i : nat) (s : string) :
  String.get i (str_drop n s) = String.get (i + n) s.
Proof.
  revert s. induction n as [|n IH]; intros s; simpl.
  - by rewrite Nat.add_0_r.
  - destruct s as [|a s].
    + by destruct i.
    + rewrite IH. by rewrite Nat.add_succ_r.
Qed.

(** The masked text of a non-empty string, with the slice and the
    repetition counted in characters. *)
Lemma log_sensitive_data_nonempty (data : string) :
  data ≠ "" →
  log_sensitive_data data
  = str_repeat "*" (String.length data - 4)
    +:+ str_drop (String.length data - 4) data.
Proof.
  intros Hne. unfold log_sensitive_data, str_mul, slice_from.
  rewrite bool_decide_false by done.
  change (-4 <? 0)%Z with true. cbv iota.
  f_equal; f_equal; lia.
Qed.

(** X29: [log_sensitive_data] returns a text of the length of the data in
    which the last four characters are those of the data and every
    character before them is a star. *)
Theorem log_sensitive_data_mask (data : string) :
  let masked := log_sensitive_data data in
  let n := String.length data in
  String.length masked = n
  ∧ (∀ i : nat, (i + 4 < n)%nat → String.get i masked = Some "*"%char)
  ∧ (∀ i : nat, (n ≤ i + 4)%nat → String.get i masked = String.get i data).
Proof.
  intros masked n. subst masked.
  destruct (decide (data = "")) as [->|Hne].
  { subst n. split; [done|]. split; [intros i Hi; simpl in Hi; lia|done]. }
  rewrite log_sensitive_data_nonempty by done. fold n.
  split; [|split].
  - rewrite PyProofs.str_length_append, str_repeat_star_length, str_drop_length.
    fold n. lia.
  - intros i Hi. rewrite <- append_correct1.
    + apply str_repeat_star_get. lia.
    + rewrite str_repeat_star_length. lia.
  - intros i Hi.
    replace i with ((i - (n - 4)) + String.length (str_repeat "*" (n - 4))) at 1
      by (rewrite str_repeat_star_length; lia).
    rewrite <- append_correct2, str_drop_get. f_equal. lia.
Qed.

(** X30: data of at most four characters is not masked at all: the text
    returned, and written to the log, is the data itself. *)
Theorem log_sensitive_data_short_unmasked (data : string) :
  (String.length data ≤ 4)%nat → log_sensitive_data data = data.
Proof.
  intros Hlen. destruct (decide (data = "")) as [->|Hne]; [done|].
  rewrite log_sensitive_data_nonempty by done.
  by replace (String.length data - 4) with 0 by lia.
Qed.

Lemma log_sensitive_data_mask_witness :
  String.length (log_sensitive_data "hunter2abc") = 10
  ∧ (∀ i : nat, (i + 4 < 10)%nat →
       String.get i (log_sensitive_data "hunter2abc") = Some "*"%char)
  ∧ (∀ i : nat, (10 ≤ i + 4)%nat →
       String.get i (log_sensitive_data "hunter2abc") = String.get i "hunter2abc").
Proof. exact (log_sensitive_data_mask "hunter2abc"). Defined.

Lemma log_sensitive_data_short_unmasked_witness :
  log_sensitive_data "1234" = "1234".
Proof. apply log_sensitive_data_short_unmasked. simpl. lia. Defined.

(** A secret of ten characters keeps its last four. *)
Example log_sensitive_data_ten :
  log_sensitive_data "hunter2abc" = "******2abc".
Proof. reflexivity. Qed.

End LoggingProofs.
